(** * RSBC-DataHub-API: prohibition rules and VIPS date handling

    A shallow embedding of [python/common/prohibitions.py] (the
    [ProhibitionBase] hierarchy, its review-window arithmetic and its fee
    schedule) and of the date helpers of [python/common/vips_api.py] that
    [python/tests/test_vips.py] exercises.

    Python's [datetime] is embedded as a record, exceptions as a [result]
    type, and the class hierarchy as an enumeration with one dispatch
    function per method. *)

From Stdlib Require Import ZArith List String Ascii Bool Lia Sorted.
Import ListNotations.
Open Scope string_scope.
Open Scope Z_scope.

(** ** Exceptions *)

(** The exceptions the embedded code can raise. [MalformedExternalDate] and
    [InvalidInput] are the two failure names of the specification's date
    bridge; the others are Python's own. *)
Inductive exn : Type :=
| TypeError
| OverflowError
| ValueError
| InvalidInput
| MalformedExternalDate.

Inductive result (A : Type) : Type :=
| OK (a : A)
| Raise (e : exn).

Arguments OK {A} a.
Arguments Raise {A} e.

Definition bind {A B : Type} (r : result A) (k : A -> result B) : result B :=
  match r with
  | OK a => k a
  | Raise e => Raise e
  end.

Notation "x <- r ;; k" := (bind r (fun x => k))
  (at level 61, r at next level, right associativity).

Definition returns {A : Type} (r : result A) : bool :=
  match r with OK _ => true | Raise _ => false end.

(** ** [datetime] *)

(** A [tzinfo] object.  Every tzinfo this code base meets has a fixed offset:
    a [pytz] zone object attached with [replace(tzinfo=...)] reports the
    zone's first (local mean time) offset, a localized [pytz] time carries
    the fixed standard or daylight offset, and [iso8601.parse_date] and
    [datetime.timezone] are fixed by construction.  [utcoffset] is in
    seconds east of UTC. *)
Record tzinfo : Type := mkTzinfo {
  tzname : string;
  utcoffset : Z
}.

(** A [datetime].  The calendar date is held as its proleptic Gregorian
    ordinal ([date.toordinal()], day 1 is 0001-01-01); year, month and day
    are recovered by [ord2ymd] below.  [dt_tzinfo = None] is a naive
    datetime. *)
Record datetime : Type := mkDatetime {
  ordinal : Z;
  hour : Z;
  minute : Z;
  second : Z;
  microsecond : Z;
  dt_tzinfo : option tzinfo
}.

(** [date.max.toordinal()], the ordinal of 9999-12-31. *)
Definition MAXORDINAL : Z := 3652059.

(** The range checks of the [datetime] constructor. *)
Definition valid_datetime (d : datetime) : Prop :=
  1 <= ordinal d <= MAXORDINAL /\
  0 <= hour d < 24 /\
  0 <= minute d < 60 /\
  0 <= second d < 60 /\
  0 <= microsecond d < 1000000.

Definition is_aware (d : datetime) : bool :=
  match dt_tzinfo d with Some _ => true | None => false end.

(** Microseconds since the (fictitious) midnight before day 1, wall clock. *)
Definition wall_us (d : datetime) : Z :=
  ((ordinal d * 86400 + hour d * 3600 + minute d * 60 + second d) * 1000000)
  + microsecond d.

(** The same instant on the UTC time line. *)
Definition utc_us (d : datetime) (tz : tzinfo) : Z :=
  wall_us d - utcoffset tz * 1000000.

(** [datetime._cmp]: naive datetimes compare by their fields, aware ones by
    their UTC instants (with fixed offsets this is also what the
    same-tzinfo shortcut computes), and mixing the two raises [TypeError]. *)
Definition dt_cmp (a b : datetime) : result comparison :=
  match dt_tzinfo a, dt_tzinfo b with
  | None, None => OK (wall_us a ?= wall_us b)
  | Some ta, Some tb => OK (utc_us a ta ?= utc_us b tb)
  | _, _ => Raise TypeError
  end.

(** The field-by-field comparison of [datetime._cmp] on naive values. *)
Definition lex_cmp (a b : datetime) : comparison :=
  match ordinal a ?= ordinal b with
  | Eq =>
    match hour a ?= hour b with
    | Eq =>
      match minute a ?= minute b with
      | Eq =>
        match second a ?= second b with
        | Eq => microsecond a ?= microsecond b
        | c => c
        end
      | c => c
      end
    | c => c
    end
  | c => c
  end.

Definition dt_gt (a b : datetime) : result bool :=
  c <- dt_cmp a b ;; OK (match c with Gt => true | _ => false end).

Definition dt_lt (a b : datetime) : result bool :=
  c <- dt_cmp a b ;; OK (match c with Lt => true | _ => false end).

Definition dt_le (a b : datetime) : result bool :=
  c <- dt_cmp a b ;; OK (match c with Gt => false | _ => true end).

(** [datetime.__eq__]: never raises; a naive and an aware value are simply
    unequal. *)
Definition dt_eq (a b : datetime) : bool :=
  match dt_cmp a b with
  | OK Eq => true
  | _ => false
  end.

(** [d + timedelta(days=n)]: the date moves by [n] days, the time of day and
    the tzinfo stay, and a date outside 0001-01-01..9999-12-31 raises
    [OverflowError]. *)
Definition add_days (d : datetime) (n : Z) : result datetime :=
  let o := ordinal d + n in
  if (0 <? o) && (o <=? MAXORDINAL)
  then OK (mkDatetime o (hour d) (minute d) (second d) (microsecond d) (dt_tzinfo d))
  else Raise OverflowError.

(** [d.replace(tzinfo=tz)]: only the tzinfo changes. *)
Definition replace_tzinfo (d : datetime) (tz : tzinfo) : datetime :=
  mkDatetime (ordinal d) (hour d) (minute d) (second d) (microsecond d) (Some tz).

(** [max(a, b)] as Python's builtin computes it: the first argument unless
    the second is strictly greater. *)
Definition dt_max (a b : datetime) : result datetime :=
  c <- dt_gt b a ;; OK (if c then b else a).

(** ** [python/common/prohibitions.py] *)

(** The four classes of the module. *)
Inductive prohibition : Type :=
| Base
| Unlicenced
| Roadside
| Administrative.

(** Class attributes, with [UnlicencedDriver]'s overrides; the two empty
    subclasses inherit everything. *)
Definition WRITTEN_REVIEW_PRICE (cls : prohibition) : Z :=
  match cls with
  | Unlicenced => 50
  | _ => 100
  end.

Definition ORAL_REVIEW_PRICE (cls : prohibition) : Z := 200.

Definition MUST_APPLY_FOR_REVIEW_WITHIN_7_DAYS (cls : prohibition) : bool :=
  match cls with
  | Unlicenced => false
  | _ => true
  end.

Definition DRIVERS_LICENCE_MUST_BE_SEIZED_BEFORE_APPLICATION_ACCEPTED
  (cls : prohibition) : bool :=
  match cls with
  | Unlicenced => false
  | _ => true
  end.

Definition MIN_DAYS_FROM_SCHEDULING_TO_REVIEW (cls : prohibition) : Z := 4.
Definition MIN_DAYS_FROM_SERVED_TO_REVIEW (cls : prohibition) : Z := 6.
Definition MAX_DAYS_FROM_SERVED_TO_REVIEW (cls : prohibition) : Z := 16.

(** A record of [logging]: level and message. *)
Inductive log_level : Type := CRITICAL | DEBUG.

Definition log_record : Type := (log_level * string)%type.

(** [prohibition_factory]: the instance for a type code, or [None] after a
    critical log line.  The result pairs the log lines written with the
    value returned. *)
Definition prohibition_factory (prohibition_type : string)
  : list log_record * option prohibition :=
  if String.eqb prohibition_type "UL" then ([], Some Unlicenced)
  else if String.eqb prohibition_type "IRP" then ([], Some Roadside)
  else if String.eqb prohibition_type "ADP" then ([], Some Administrative)
  else ([(CRITICAL, "prohibition_type not known")], None).

(** [ProhibitionBase.amount_due]; falling off the end returns [None]. *)
Definition ProhibitionBase_amount_due (presentation_type : string) : option Z :=
  if String.eqb presentation_type "WRIT" then Some (WRITTEN_REVIEW_PRICE Base)
  else if String.eqb presentation_type "ORAL" then Some (ORAL_REVIEW_PRICE Base)
  else None.

(** [UnlicencedDriver.amount_due]. *)
Definition UnlicencedDriver_amount_due (presentation_type : string) : option Z :=
  Some (WRITTEN_REVIEW_PRICE Unlicenced).

(** Method resolution for [amount_due]. *)
Definition amount_due (cls : prohibition) (presentation_type : string) : option Z :=
  match cls with
  | Unlicenced => UnlicencedDriver_amount_due presentation_type
  | _ => ProhibitionBase_amount_due presentation_type
  end.

Section Prohibitions.

(** [pytz.timezone]: the zone database of [pytz], which is not part of
    the repository. *)
Variable pytz_timezone : string -> tzinfo.

(** [python.common.helper.localize_timezone], whose module is not among
    the sources: a parameter of the development. *)
Variable localize_timezone : datetime -> result datetime.

(** [ProhibitionBase.get_min_max_review_dates].  [today] is passed
    explicitly. *)
Definition ProhibitionBase_get_min_max_review_dates
  (service_date today : datetime) : result (datetime * datetime) :=
  let tz := pytz_timezone "America/Vancouver" in
  earliest_possible_date <-
    add_days (replace_tzinfo today tz) (MIN_DAYS_FROM_SCHEDULING_TO_REVIEW Base) ;;
  legislated_minimum <-
    add_days service_date (MIN_DAYS_FROM_SERVED_TO_REVIEW Base) ;;
  later <- dt_gt earliest_possible_date legislated_minimum ;;
  let legislated_minimum :=
    if later then earliest_possible_date else legislated_minimum in
  legislated_maximum <-
    add_days service_date (MAX_DAYS_FROM_SERVED_TO_REVIEW Base) ;;
  later <- dt_gt earliest_possible_date legislated_maximum ;;
  let legislated_maximum :=
    if later then earliest_possible_date else legislated_maximum in
  OK (legislated_minimum, legislated_maximum).

(** [UnlicencedDriver.get_min_max_review_dates]: [service_date] is
    accepted and not used. *)
Definition UnlicencedDriver_get_min_max_review_dates
  (service_date today : datetime) : result (datetime * datetime) :=
  localized <- localize_timezone today ;;
  min_date <- add_days localized (MIN_DAYS_FROM_SCHEDULING_TO_REVIEW Unlicenced) ;;
  localized <- localize_timezone today ;;
  max_date <- add_days localized (MAX_DAYS_FROM_SERVED_TO_REVIEW Unlicenced) ;;
  OK (min_date, max_date).

(** Method resolution for [get_min_max_review_dates]. *)
Definition get_min_max_review_dates (cls : prohibition)
  (service_date today : datetime) : result (datetime * datetime) :=
  match cls with
  | Unlicenced => UnlicencedDriver_get_min_max_review_dates service_date today
  | _ => ProhibitionBase_get_min_max_review_dates service_date today
  end.

(** The review window as the specification words it: five steps over
    [normalize], day offsets and [max]. *)
Definition normalize (today : datetime) : datetime :=
  replace_tzinfo today (pytz_timezone "America/Vancouver").

Definition five_step_window (serviceDate today : datetime)
  : result (datetime * datetime) :=
  earliestPossible <- add_days (normalize today) 4 ;;
  legislatedMin <- add_days serviceDate 6 ;;
  minimumDate <- dt_max earliestPossible legislatedMin ;;
  legislatedMax <- add_days serviceDate 16 ;;
  maximumDate <- dt_max earliestPossible legislatedMax ;;
  OK (minimumDate, maximumDate).

End Prohibitions.

(** ** The proleptic Gregorian calendar of [datetime]

    Year, month and day of an ordinal, and back, as CPython's [datetime]
    computes them ([_is_leap], [_days_before_year], [_days_in_month],
    [_days_before_month], [_ymd2ord], [_ord2ymd]); [strftime] reads the
    fields through them. *)

Definition is_leap (year : Z) : bool :=
  (year mod 4 =? 0) && (negb (year mod 100 =? 0) || (year mod 400 =? 0)).

Definition days_before_year (year : Z) : Z :=
  let y := year - 1 in
  y * 365 + y / 4 - y / 100 + y / 400.

(** [_DAYS_IN_MONTH] with the leap day added to February. *)
Definition days_in_month (leap : bool) (month : Z) : Z :=
  match month with
  | 1 => 31 | 2 => if leap then 29 else 28 | 3 => 31 | 4 => 30
  | 5 => 31 | 6 => 30 | 7 => 31 | 8 => 31
  | 9 => 30 | 10 => 31 | 11 => 30 | 12 => 31
  | _ => -1
  end.

(** [_DAYS_BEFORE_MONTH] with the leap day added after February. *)
Definition days_before_month (leap : bool) (month : Z) : Z :=
  let base :=
    match month with
    | 1 => 0 | 2 => 31 | 3 => 59 | 4 => 90
    | 5 => 120 | 6 => 151 | 7 => 181 | 8 => 212
    | 9 => 243 | 10 => 273 | 11 => 304 | 12 => 334
    | _ => -1
    end in
  base + (if (2 <? month) && leap then 1 else 0).

Definition ymd2ord (year month day : Z) : Z :=
  days_before_year year + days_before_month (is_leap year) month + day.

(** The month and day of the [n]-th day (from 0) of a year: the estimate
    [(n + 50) >> 5] of [_ord2ymd], corrected when it is one too large. *)
Definition month_day (leapyear : bool) (n : Z) : Z * Z :=
  let month := Z.shiftr (n + 50) 5 in
  let preceding := days_before_month leapyear month in
  if n <? preceding
  then (month - 1, n - (preceding - days_in_month leapyear (month - 1)) + 1)
  else (month, n - preceding + 1).

Definition DI400Y : Z := 146097.
Definition DI100Y : Z := 36524.
Definition DI4Y : Z := 1461.

Definition ord2ymd (ord : Z) : Z * Z * Z :=
  let n := ord - 1 in
  let n400 := n / DI400Y in
  let n := n mod DI400Y in
  let n100 := n / DI100Y in
  let n := n mod DI100Y in
  let n4 := n / DI4Y in
  let n := n mod DI4Y in
  let n1 := n / 365 in
  let n := n mod 365 in
  let year := n400 * 400 + 1 + n100 * 100 + n4 * 4 + n1 in
  if (n1 =? 4) || (n100 =? 4) then (year - 1, 12, 31)
  else
    let leapyear := (n1 =? 3) && (negb (n4 =? 24) || (n100 =? 3)) in
    let '(month, day) := month_day leapyear n in
    (year, month, day).

Definition year (d : datetime) : Z := fst (fst (ord2ymd (ordinal d))).
Definition month (d : datetime) : Z := snd (fst (ord2ymd (ordinal d))).
Definition day (d : datetime) : Z := snd (ord2ymd (ordinal d)).

(** [datetime.weekday()]: Monday is 0, Sunday is 6. *)
Definition weekday (d : datetime) : Z := (ordinal d + 6) mod 7.

(** [datetime(year, month, day, hour, minute, second)] with its range
    checks, as [strptime] and the ISO parser build their results. *)
Definition make_datetime (y mo d h mi s us : Z) (tz : option tzinfo)
  : option datetime :=
  if (1 <=? y) && (y <=? 9999) && (1 <=? mo) && (mo <=? 12)
     && (1 <=? d) && (d <=? days_in_month (is_leap y) mo)
     && (0 <=? h) && (h <? 24) && (0 <=? mi) && (mi <? 60)
     && (0 <=? s) && (s <? 60) && (0 <=? us) && (us <? 1000000)
  then Some (mkDatetime (ymd2ord y mo d) h mi s us tz)
  else None.

(** ** Digits and [strftime] fields *)

Definition digit (n : Z) : ascii := ascii_of_nat (Z.to_nat (48 + n)).

Definition digit_val (c : ascii) : option Z :=
  let n := Z.of_nat (nat_of_ascii c) in
  if (48 <=? n) && (n <=? 57) then Some (n - 48) else None.

(** Zero-padded decimal of width 2 ([%m], [%d], [%H], [%M], [%S]). *)
Definition pad2 (n : Z) : string :=
  String (digit (n / 10)) (String (digit (n mod 10)) EmptyString).

(** Zero-padded decimal of width 4 ([%Y]). *)
Definition pad4 (n : Z) : string :=
  String (digit (n / 1000))
    (String (digit (n / 100 mod 10))
      (String (digit (n / 10 mod 10))
        (String (digit (n mod 10)) EmptyString))).

(** Decimal without padding, for numbers below 10000 ([%-d], [%-I]). *)
Definition decimal (n : Z) : string :=
  if n <? 10 then String (digit n) EmptyString
  else if n <? 100 then pad2 n
  else if n <? 1000 then String (digit (n / 100)) (pad2 (n mod 100))
  else pad4 n.

Definition num2 (a b : ascii) : option Z :=
  match digit_val a, digit_val b with
  | Some x, Some y => Some (10 * x + y)
  | _, _ => None
  end.

Definition num4 (a b c d : ascii) : option Z :=
  match num2 a b, num2 c d with
  | Some x, Some y => Some (100 * x + y)
  | _, _ => None
  end.

(** [%a] *)
Definition weekday_abbr (w : Z) : string :=
  match w with
  | 0 => "Mon" | 1 => "Tue" | 2 => "Wed" | 3 => "Thu"
  | 4 => "Fri" | 5 => "Sat" | _ => "Sun"
  end.

(** [%b] *)
Definition month_abbr (m : Z) : string :=
  match m with
  | 1 => "Jan" | 2 => "Feb" | 3 => "Mar" | 4 => "Apr"
  | 5 => "May" | 6 => "Jun" | 7 => "Jul" | 8 => "Aug"
  | 9 => "Sep" | 10 => "Oct" | 11 => "Nov" | _ => "Dec"
  end.

(** [strftime("%Y-%m-%d")], the test suite's [iso_date_string]. *)
Definition iso_date_string (date_time : datetime) : string :=
  pad4 (year date_time) ++ "-" ++ pad2 (month date_time) ++ "-"
  ++ pad2 (day date_time).

(** ** [python/common/helper.py] and [python/common/vips_api.py]

    Neither module is among the sources; the test suite calls them and the
    specification gives their contracts. *)

Definition valid_datetimeb (d : datetime) : bool :=
  (1 <=? ordinal d) && (ordinal d <=? MAXORDINAL)
  && (0 <=? hour d) && (hour d <? 24)
  && (0 <=? minute d) && (minute d <? 60)
  && (0 <=? second d) && (second d <? 60)
  && (0 <=? microsecond d) && (microsecond d <? 1000000).

(** Modelled from the spec: [helper.localize_timezone] is missing.  Section
    4.1: a naive timestamp gets the America/Vancouver tzinfo with its
    wall-clock fields unchanged, an already-aware one is returned as it is,
    and a value that is not a valid calendar timestamp fails with
    [InvalidInput]. *)
Definition localize_timezone_spec (vancouver : tzinfo) (date_time : datetime)
  : result datetime :=
  if valid_datetimeb date_time then
    match dt_tzinfo date_time with
    | None => OK (replace_tzinfo date_time vancouver)
    | Some _ => OK date_time
    end
  else Raise InvalidInput.

(** The sign, hours and minutes of a UTC offset, as [+HH:MM] or [-HH:MM]. *)
Definition offset_string (tz : tzinfo) : string :=
  let o := utcoffset tz in
  (if o <? 0 then "-" else "+")
  ++ pad2 (Z.abs o / 3600) ++ ":" ++ pad2 (Z.abs o / 60 mod 60).

(** Modelled from the spec: [vips_api.vips_datetime] is missing.  Section
    4.5, outbound: the timestamp as [YYYY-MM-DD HH:MM:SS], a space, and the
    offset with a colon inside.  The contract is for timezone-aware
    timestamps; a naive one has no offset to print and is refused. *)
Definition vips_datetime (date_time : datetime) : result string :=
  match dt_tzinfo date_time with
  | None => Raise TypeError
  | Some tz =>
    OK (pad4 (year date_time) ++ "-" ++ pad2 (month date_time) ++ "-"
        ++ pad2 (day date_time) ++ " " ++ pad2 (hour date_time) ++ ":"
        ++ pad2 (minute date_time) ++ ":" ++ pad2 (second date_time) ++ " "
        ++ offset_string tz)
  end.

(** Modelled from the spec: the first half of [vips_api.vips_str_to_datetime]
    (missing).  Section 4.5, inbound: strip the space before the offset and
    remove the offset's internal colon, giving a strict ISO-8601 string; a
    string of another shape is malformed. *)
Definition strict_iso8601 (vips_date_time : string) : result string :=
  match String.get 19 vips_date_time, String.get 23 vips_date_time with
  | Some sp, Some colon =>
    if Nat.eqb (String.length vips_date_time) 26
       && Ascii.eqb sp " " && Ascii.eqb colon ":"
    then OK (substring 0 19 vips_date_time ++ substring 20 3 vips_date_time
             ++ substring 24 2 vips_date_time)
    else Raise MalformedExternalDate
  | _, _ => Raise MalformedExternalDate
  end.

(** Modelled from the spec: the standard ISO-8601 parser the bridge delegates
    to ([iso8601.parse_date] in the test suite), on the one shape the bridge
    hands it, [YYYY-MM-DD HH:MM:SS+HHMM] or [...-HHMM].  The result carries a
    fixed-offset tzinfo named after the offset. *)
Definition parse_date (s : string) : option datetime :=
  match s with
  | String y1 (String y2 (String y3 (String y4 (String dash1
    (String mo1 (String mo2 (String dash2 (String d1 (String d2
    (String sep (String h1 (String h2 (String colon1 (String mi1
    (String mi2 (String colon2 (String s1 (String s2 (String sign
    (String oh1 (String oh2 (String om1 (String om2 EmptyString)))))))))))))))))))))))
    =>
    if Ascii.eqb dash1 "-" && Ascii.eqb dash2 "-" && Ascii.eqb sep " "
       && Ascii.eqb colon1 ":" && Ascii.eqb colon2 ":"
       && (Ascii.eqb sign "+" || Ascii.eqb sign "-")
    then
      match num4 y1 y2 y3 y4, num2 mo1 mo2, num2 d1 d2,
            num2 h1 h2, num2 mi1 mi2, num2 s1 s2, num2 oh1 oh2, num2 om1 om2 with
      | Some y, Some mo, Some d, Some h, Some mi, Some sc, Some oh, Some om =>
        if (oh <? 24) && (om <? 60) then
          let secs := oh * 3600 + om * 60 in
          let off := if Ascii.eqb sign "-" then - secs else secs in
          let tz := mkTzinfo (String sign (pad2 oh ++ ":" ++ pad2 om)) off in
          make_datetime y mo d h mi sc 0 (Some tz)
        else None
      | _, _, _, _, _, _, _, _ => None
      end
    else None
  | _ => None
  end.

(** Modelled from the spec: [vips_api.vips_str_to_datetime] is missing.
    Section 4.5, inbound: normalise, delegate to the ISO-8601 parser, and
    fail with [MalformedExternalDate] when the string does not match or is
    not a valid timestamp. *)
Definition vips_str_to_datetime (vips_date_time : string) : result datetime :=
  iso <- strict_iso8601 vips_date_time ;;
  match parse_date iso with
  | Some d => OK d
  | None => Raise MalformedExternalDate
  end.

(** The days [start + n], [start + n + 1], ... ([count] of them) that fall
    on Monday to Friday. *)
Fixpoint weekdays_from (start : datetime) (n : Z) (count : nat)
  : result (list datetime) :=
  match count with
  | O => OK []
  | S k =>
    next_date <- add_days start n ;;
    rest <- weekdays_from start (n + 1) k ;;
    OK (if weekday next_date <? 5 then next_date :: rest else rest)
  end.

(** Modelled from the spec: [vips_api.list_of_weekdays_dates_between] is
    missing.  Section 4.6 speaks of dates: the calendar days from the day
    of [start] to the day of [end], both included, in order, restricted to
    Monday-Friday; nothing when the day of [start] is after the day of
    [end].  The times of day and the tzinfo of the two arguments play no
    part.  Each day is yielded as [start] moved by whole days, and the lazy
    sequence is embedded as the list of what it yields. *)
Definition list_of_weekdays_dates_between (start end_ : datetime)
  : result (list datetime) :=
  weekdays_from start 0 (Z.to_nat (ordinal end_ - ordinal start + 1)).

(** A time slot of the external system's schedule (section 3). *)
Record ScheduleSlot : Type := mkSlot {
  reviewStartDtm : datetime;
  reviewEndDtm : datetime;
  available : bool;
  presentation_tag : string
}.

(** A display-ready slot (section 3). *)
Record FriendlyTimeSlot : Type := mkFriendly {
  label : string;
  slot_start : datetime;
  slot_end : datetime
}.

(** [%-I:%M%p]: twelve-hour clock, hour without a leading zero. *)
Definition hour12 (d : datetime) : Z :=
  let h := hour d mod 12 in if h =? 0 then 12 else h.

Definition friendly_time (d : datetime) : string :=
  decimal (hour12 d) ++ ":" ++ pad2 (minute d)
  ++ (if hour d <? 12 then "AM" else "PM").

(** [%a, %b %-d, %Y - %-I:%M%p] of the start, [ to ], [%-I:%M%p] of the end. *)
Definition friendly_label (start end_ : datetime) : string :=
  weekday_abbr (weekday start) ++ ", " ++ month_abbr (month start) ++ " "
  ++ decimal (day start) ++ ", " ++ decimal (year start) ++ " - "
  ++ friendly_time start ++ " to " ++ friendly_time end_.

(** Modelled from the spec: [vips_api.time_slots_to_friendly_times] is
    missing.  Section 4.7: one labelled slot per input slot that is
    available and whose tag is the presentation type, in input order, each
    carrying the slot's start and end. *)
Fixpoint time_slots_to_friendly_times (time_slots : list ScheduleSlot)
  (presentation_type : string) : list FriendlyTimeSlot :=
  match time_slots with
  | [] => []
  | item :: rest =>
    let tail := time_slots_to_friendly_times rest presentation_type in
    if available item && String.eqb (presentation_tag item) presentation_type
    then mkFriendly (friendly_label (reviewStartDtm item) (reviewEndDtm item))
                    (reviewStartDtm item) (reviewEndDtm item) :: tail
    else tail
  end.

(** ** Concrete data for the examples *)

(** The zone object [pytz.timezone('America/Vancouver')] as
    [replace(tzinfo=...)] attaches it: [pytz] reports the zone's first
    entry, local mean time, 8 hours 12 minutes west. *)
Definition pytz_zones (zone : string) : tzinfo :=
  if String.eqb zone "America/Vancouver"
  then mkTzinfo "America/Vancouver" (-29520)
  else mkTzinfo zone 0.

Definition PST : tzinfo := mkTzinfo "PST" (-28800).
Definition PDT : tzinfo := mkTzinfo "PDT" (-25200).

(** [datetime.strptime(s, "%Y-%m-%d")] for a valid date: naive midnight. *)
Definition midnight (y mo d : Z) : datetime :=
  mkDatetime (ymd2ord y mo d) 0 0 0 0 None.

(** Modelled from the spec: the schedule fixture
    [sample_data/vips/vips_schedule_200.json] is missing.  Section 8 gives
    its five oral slots by their labels: half-hour reviews on Friday
    2020-09-04 at 9, 10, 11, 12 and 13 o'clock, Pacific daylight time. *)
Definition fixture_slot (h : Z) : ScheduleSlot :=
  mkSlot (mkDatetime (ymd2ord 2020 9 4) h 0 0 0 (Some PDT))
         (mkDatetime (ymd2ord 2020 9 4) h 30 0 0 (Some PDT))
         true "ORAL".

Definition vips_schedule_200 : list ScheduleSlot :=
  map fixture_slot [9; 10; 11; 12; 13].

(** The inputs on which a review window is computed: for the base method an
    aware service date, and day offsets that stay within [datetime]'s
    range; for the unlicenced-driver method a localizable [today] with its
    offsets in range. *)
Definition in_range (d : datetime) (n : Z) : Prop :=
  0 < ordinal d + n <= MAXORDINAL.

Definition valid_review_inputs (localize_timezone : datetime -> result datetime)
  (cls : prohibition) (service_date today : datetime) : Prop :=
  match cls with
  | Unlicenced =>
    exists localized, localize_timezone today = OK localized
                      /\ in_range localized 4 /\ in_range localized 16
  | _ =>
    is_aware service_date = true
    /\ in_range today 4 /\ in_range service_date 6 /\ in_range service_date 16
  end.

(** [d] moved by [n] days. *)
Definition shifted (d : datetime) (n : Z) : datetime :=
  mkDatetime (ordinal d + n) (hour d) (minute d) (second d) (microsecond d)
             (dt_tzinfo d).

(** [range(lo, lo + count)] and a check of a decidable property over it. *)
Fixpoint zrange (lo : Z) (count : nat) : list Z :=
  match count with
  | O => []
  | S k => lo :: zrange (lo + 1) k
  end.

Definition all_from (f : Z -> bool) (lo : Z) (count : Z) : bool :=
  forallb f (zrange lo (Z.to_nat count)).

(** A UTC offset Python accepts: strictly within a day. *)
Definition valid_tzinfo (tz : tzinfo) : Prop :=
  -86400 < utcoffset tz < 86400.

(** What the external format can carry: whole seconds, and an offset of
    whole minutes. *)
Definition vips_representable (t : datetime) (tz : tzinfo) : Prop :=
  dt_tzinfo t = Some tz /\ microsecond t = 0 /\ utcoffset tz mod 60 = 0.

(** The slots the formatter keeps, and what it makes of one. *)
Definition slot_selected (presentation_type : string) (item : ScheduleSlot) : bool :=
  available item && String.eqb (presentation_tag item) presentation_type.

Definition friendly_slot (item : ScheduleSlot) : FriendlyTimeSlot :=
  mkFriendly (friendly_label (reviewStartDtm item) (reviewEndDtm item))
             (reviewStartDtm item) (reviewEndDtm item).

(** Sample inputs: a notice served on Tuesday 2020-09-01 at 9:00 Pacific
    daylight time, and two values of today. *)
Definition sample_service_date : datetime :=
  mkDatetime (ymd2ord 2020 9 1) 9 0 0 0 (Some PDT).

Definition sample_today : datetime := midnight 2020 9 3.

Definition sample_late_today : datetime := midnight 2020 10 1.

(** [test_vips.py]'s timestamp, 2019-01-02 17:30:00 -08:00, and the same
    with one microsecond more. *)
Definition sample_timestamp : datetime :=
  mkDatetime (ymd2ord 2019 1 2) 17 30 0 0 (Some PST).

Definition sample_timestamp_us : datetime :=
  mkDatetime (ymd2ord 2019 1 2) 17 30 0 1 (Some PST).

(** An oral slot the external system marks unavailable. *)
Definition unavailable_slot : ScheduleSlot :=
  mkSlot (mkDatetime (ymd2ord 2020 9 4) 9 0 0 0 (Some PDT))
         (mkDatetime (ymd2ord 2020 9 4) 9 30 0 0 (Some PDT))
         false "ORAL".

(** One day, in microseconds. *)
Definition DAY_US : Z := 86400000000.

(** [a - b] as a [timedelta], in microseconds: the difference of the wall
    clocks for two naive values, of the UTC instants for two aware ones, and
    a [TypeError] for one of each. *)
Definition sub_us (a b : datetime) : result Z :=
  match dt_tzinfo a, dt_tzinfo b with
  | None, None => OK (wall_us a - wall_us b)
  | Some ta, Some tb => OK (utc_us a ta - utc_us b tb)
  | _, _ => Raise TypeError
  end.

(** The calendar and clock fields of a datetime, without its tzinfo. *)
Definition wall_fields (d : datetime) : Z * Z * Z * Z * Z :=
  (ordinal d, hour d, minute d, second d, microsecond d).

(** A third value of today, a week after the sample notice was served. *)
Definition sample_mid_today : datetime := midnight 2020 9 8.

(** The sample notice, served one day later. *)
Definition sample_later_service_date : datetime :=
  mkDatetime (ymd2ord 2020 9 2) 9 0 0 0 (Some PST).

(** * Properties *)

(** ** [datetime] arithmetic and comparison *)

Lemma add_days_in_range (d : datetime) (n : Z) :
  in_range d n -> add_days d n = OK (shifted d n).
Proof.
  unfold in_range, add_days, shifted. intros [Hlo Hhi].
  apply Z.ltb_lt in Hlo. apply Z.leb_le in Hhi.
  now rewrite Hlo, Hhi.
Qed.

Lemma add_days_inv (d d' : datetime) (n : Z) :
  add_days d n = OK d' -> in_range d n /\ d' = shifted d n.
Proof.
  unfold add_days, in_range, shifted.
  destruct (0 <? ordinal d + n) eqn:Hlo; simpl; [|discriminate].
  destruct (ordinal d + n <=? MAXORDINAL) eqn:Hhi; [|discriminate].
  intros H. injection H as <-.
  apply Z.ltb_lt in Hlo. apply Z.leb_le in Hhi. auto.
Qed.

Lemma add_days_out_of_range (d : datetime) (n : Z) :
  ~ in_range d n -> add_days d n = Raise OverflowError.
Proof.
  unfold in_range, add_days. intros H.
  destruct (0 <? ordinal d + n) eqn:Hlo; simpl; [|reflexivity].
  destruct (ordinal d + n <=? MAXORDINAL) eqn:Hhi; [|reflexivity].
  apply Z.ltb_lt in Hlo. apply Z.leb_le in Hhi. exfalso. auto.
Qed.

Lemma in_range_dec (d : datetime) (n : Z) : {in_range d n} + {~ in_range d n}.
Proof.
  unfold in_range.
  destruct (Z_lt_dec 0 (ordinal d + n)); [|right; lia].
  destruct (Z_le_dec (ordinal d + n) MAXORDINAL); [left; lia | right; lia].
Qed.

(** On valid naive datetimes the numeric comparison of wall clocks is the
    field-by-field comparison Python performs. *)
Lemma lex_cmp_wall_us (a b : datetime) :
  valid_datetime a -> valid_datetime b ->
  lex_cmp a b = (wall_us a ?= wall_us b).
Proof.
  unfold valid_datetime, lex_cmp, wall_us.
  intros (_ & Hh & Hm & Hs & Hu) (_ & Hh' & Hm' & Hs' & Hu').
  symmetry.
  destruct (Z.compare_spec (ordinal a) (ordinal b)) as [He|Hl|Hg];
    [| apply Z.compare_lt_iff; lia | apply Z.compare_gt_iff; lia].
  destruct (Z.compare_spec (hour a) (hour b)) as [He1|Hl|Hg];
    [| apply Z.compare_lt_iff; lia | apply Z.compare_gt_iff; lia].
  destruct (Z.compare_spec (minute a) (minute b)) as [He2|Hl|Hg];
    [| apply Z.compare_lt_iff; lia | apply Z.compare_gt_iff; lia].
  destruct (Z.compare_spec (second a) (second b)) as [He3|Hl|Hg];
    [| apply Z.compare_lt_iff; lia | apply Z.compare_gt_iff; lia].
  rewrite He, He1, He2, He3.
  destruct (Z.compare_spec (microsecond a) (microsecond b)) as [He4|Hl|Hg];
    [apply Z.compare_eq_iff | apply Z.compare_lt_iff | apply Z.compare_gt_iff];
    lia.
Qed.

Lemma dt_cmp_aware (a b : datetime) (ta tb : tzinfo) :
  dt_tzinfo a = Some ta -> dt_tzinfo b = Some tb ->
  dt_cmp a b = OK (utc_us a ta ?= utc_us b tb).
Proof. unfold dt_cmp. now intros -> ->. Qed.

Lemma dt_cmp_mixed (a b : datetime) :
  is_aware a = negb (is_aware b) -> dt_cmp a b = Raise TypeError.
Proof.
  unfold dt_cmp, is_aware.
  destruct (dt_tzinfo a), (dt_tzinfo b); simpl; congruence.
Qed.

Lemma dt_cmp_refl (a : datetime) : dt_cmp a a = OK Eq.
Proof.
  unfold dt_cmp. destruct (dt_tzinfo a); now rewrite Z.compare_refl.
Qed.

Lemma dt_cmp_antisym (a b : datetime) :
  dt_cmp b a =
  match dt_cmp a b with
  | OK c => OK (CompOpp c)
  | Raise e => Raise e
  end.
Proof.
  unfold dt_cmp.
  destruct (dt_tzinfo a), (dt_tzinfo b); try reflexivity;
    now rewrite Z.compare_antisym.
Qed.

Lemma dt_le_refl (a : datetime) : dt_le a a = OK true.
Proof. unfold dt_le. now rewrite dt_cmp_refl. Qed.

(** Moving one datetime by two day counts keeps their order. *)
Lemma dt_le_shifted (d : datetime) (m n : Z) :
  m <= n -> dt_le (shifted d m) (shifted d n) = OK true.
Proof.
  intros Hmn. unfold dt_le, dt_cmp, shifted, utc_us, wall_us. simpl.
  destruct (dt_tzinfo d); simpl;
    match goal with
    | |- context [?x ?= ?y] => destruct (Z.compare_spec x y); try reflexivity; lia
    end.
Qed.

(** [a > b] answered with [false] is [a <= b]. *)
Lemma dt_gt_false_le (a b : datetime) :
  dt_gt a b = OK false -> dt_le a b = OK true.
Proof.
  unfold dt_gt, dt_le. destruct (dt_cmp a b) as [[]|]; simpl; congruence.
Qed.

Lemma dt_gt_inv (a b : datetime) (r : bool) :
  dt_gt a b = OK r -> is_aware a = is_aware b.
Proof.
  unfold dt_gt, dt_cmp, is_aware.
  destruct (dt_tzinfo a), (dt_tzinfo b); simpl; congruence.
Qed.

(** ** The review window *)

Section ReviewWindow.

Variable pytz_timezone : string -> tzinfo.
Variable localize_timezone : datetime -> result datetime.

Local Notation "'base_window'" :=
  (ProhibitionBase_get_min_max_review_dates pytz_timezone).
Local Notation "'unlicenced_window'" :=
  (UnlicencedDriver_get_min_max_review_dates localize_timezone).
Local Notation "'window'" :=
  (get_min_max_review_dates pytz_timezone localize_timezone).
Local Notation "'vancouver'" := (pytz_timezone "America/Vancouver").

(** The base method on inputs in its domain, step by step. *)
Lemma base_window_eq (service_date today : datetime) (tz : tzinfo) :
  dt_tzinfo service_date = Some tz ->
  in_range today 4 -> in_range service_date 6 -> in_range service_date 16 ->
  let earliest := shifted (replace_tzinfo today vancouver) 4 in
  let lmin := shifted service_date 6 in
  let lmax := shifted service_date 16 in
  base_window service_date today =
  OK (if utc_us lmin tz <? utc_us earliest vancouver then earliest else lmin,
      if utc_us lmax tz <? utc_us earliest vancouver then earliest else lmax).
Proof.
  intros Htz Ht Hs6 Hs16 earliest lmin lmax.
  unfold ProhibitionBase_get_min_max_review_dates,
    MIN_DAYS_FROM_SCHEDULING_TO_REVIEW, MIN_DAYS_FROM_SERVED_TO_REVIEW,
    MAX_DAYS_FROM_SERVED_TO_REVIEW.
  rewrite (add_days_in_range (replace_tzinfo today vancouver) 4) by exact Ht.
  rewrite (add_days_in_range service_date 6) by exact Hs6.
  rewrite (add_days_in_range service_date 16) by exact Hs16.
  cbn [bind]. fold earliest lmin lmax.
  unfold dt_gt.
  rewrite (dt_cmp_aware earliest lmin vancouver tz) by (reflexivity || exact Htz).
  rewrite (dt_cmp_aware earliest lmax vancouver tz) by (reflexivity || exact Htz).
  cbn [bind].
  rewrite (Z.ltb_compare (utc_us lmin tz)), (Z.ltb_compare (utc_us lmax tz)).
  rewrite (Z.compare_antisym (utc_us lmin tz)), (Z.compare_antisym (utc_us lmax tz)).
  destruct (utc_us lmin tz ?= utc_us earliest vancouver);
    destruct (utc_us lmax tz ?= utc_us earliest vancouver); reflexivity.
Qed.

(** The unlicenced-driver method on inputs in its domain. *)
Lemma unlicenced_window_eq (service_date today localized : datetime) :
  localize_timezone today = OK localized ->
  in_range localized 4 -> in_range localized 16 ->
  unlicenced_window service_date today =
  OK (shifted localized 4, shifted localized 16).
Proof.
  intros Hloc H4 H16.
  unfold UnlicencedDriver_get_min_max_review_dates,
    MIN_DAYS_FROM_SCHEDULING_TO_REVIEW, MAX_DAYS_FROM_SERVED_TO_REVIEW.
  rewrite Hloc. cbn [bind].
  rewrite (add_days_in_range localized 4) by exact H4.
  rewrite (add_days_in_range localized 16) by exact H16.
  reflexivity.
Qed.

(** A window is returned on valid inputs only. *)
Lemma window_returns_valid (cls : prohibition) (service_date today : datetime)
  (w : datetime * datetime) :
  window cls service_date today = OK w ->
  valid_review_inputs localize_timezone cls service_date today.
Proof.
  assert (Hbase :
    base_window service_date today = OK w ->
    is_aware service_date = true
    /\ in_range today 4 /\ in_range service_date 6 /\ in_range service_date 16).
  { unfold ProhibitionBase_get_min_max_review_dates,
      MIN_DAYS_FROM_SCHEDULING_TO_REVIEW, MIN_DAYS_FROM_SERVED_TO_REVIEW,
      MAX_DAYS_FROM_SERVED_TO_REVIEW.
    destruct (add_days (replace_tzinfo today vancouver) 4) as [e|] eqn:He;
      [|discriminate].
    destruct (add_days service_date 6) as [l6|] eqn:H6; [|discriminate].
    cbn [bind].
    destruct (dt_gt e l6) as [b1|] eqn:Hb1; [|discriminate].
    destruct (add_days service_date 16) as [l16|] eqn:H16; [|discriminate].
    intros _.
    apply add_days_inv in He as [He ->], H6 as [H6 ->], H16 as [H16 _].
    apply dt_gt_inv in Hb1. unfold is_aware in *. simpl in Hb1.
    repeat split; try apply H6; try apply H16; try apply He; auto. }
  destruct cls; simpl; try exact Hbase.
  unfold UnlicencedDriver_get_min_max_review_dates,
    MIN_DAYS_FROM_SCHEDULING_TO_REVIEW, MAX_DAYS_FROM_SERVED_TO_REVIEW.
  destruct (localize_timezone today) as [n|] eqn:Hn; [|discriminate].
  cbn [bind].
  destruct (add_days n 4) as [a|] eqn:H4; [|discriminate].
  destruct (add_days n 16) as [b|] eqn:H16; [|discriminate].
  intros _. exists n.
  apply add_days_inv in H4 as [H4 _], H16 as [H16 _]. auto.
Qed.

(** C1. For every policy variant and every valid service date and today,
    [get_min_max_review_dates] returns a window whose minimum date is not
    after its maximum date ([minimum <= maximum] in Python's comparison),
    the collapsed window with two equal dates included. *)
Theorem review_window_ordered (cls : prohibition) (service_date today : datetime) :
  valid_review_inputs localize_timezone cls service_date today ->
  exists minimum maximum,
    window cls service_date today = OK (minimum, maximum)
    /\ dt_le minimum maximum = OK true.
Proof.
  assert (Hbase :
    is_aware service_date = true
    /\ in_range today 4 /\ in_range service_date 6 /\ in_range service_date 16 ->
    exists minimum maximum,
      base_window service_date today = OK (minimum, maximum)
      /\ dt_le minimum maximum = OK true).
  { intros (Haw & Ht & H6 & H16).
    unfold is_aware in Haw.
    destruct (dt_tzinfo service_date) as [tz|] eqn:Htz; [|discriminate].
    rewrite (base_window_eq service_date today tz Htz Ht H6 H16).
    do 2 eexists. split; [reflexivity|].
    destruct (utc_us (shifted service_date 6) tz
              <? utc_us (shifted (replace_tzinfo today vancouver) 4) vancouver)
      eqn:Hc1;
    destruct (utc_us (shifted service_date 16) tz
              <? utc_us (shifted (replace_tzinfo today vancouver) 4) vancouver)
      eqn:Hc2.
    - apply dt_le_refl.
    - unfold dt_le.
      rewrite (dt_cmp_aware _ _ vancouver tz) by (reflexivity || exact Htz).
      cbn [bind]. apply Z.ltb_ge in Hc2.
      destruct (Z.compare_spec
                  (utc_us (shifted (replace_tzinfo today vancouver) 4) vancouver)
                  (utc_us (shifted service_date 16) tz)); try reflexivity; lia.
    - apply Z.ltb_ge in Hc1. apply Z.ltb_lt in Hc2.
      unfold utc_us, wall_us, shifted in Hc1, Hc2. simpl in Hc1, Hc2. lia.
    - apply dt_le_shifted. lia. }
  destruct cls; simpl; try exact Hbase.
  intros (localized & Hloc & H4 & H16).
  rewrite (unlicenced_window_eq service_date today localized Hloc H4 H16).
  do 2 eexists. split; [reflexivity|]. apply dt_le_shifted. lia.
Qed.

(** The comparison of the code and the specification's [max] agree: both
    raise the same exception, or pick equal datetimes. *)
Lemma later_of_two (a b : datetime) :
  match dt_gt a b, dt_max a b with
  | OK later, OK m => dt_eq (if later then a else b) m = true
  | Raise e, Raise e' => e = e'
  | _, _ => False
  end.
Proof.
  unfold dt_max, dt_gt, dt_eq.
  rewrite (dt_cmp_antisym a b).
  destruct (dt_cmp a b) as [[]|] eqn:Hab; cbn [bind CompOpp]; try reflexivity.
  - now rewrite (dt_cmp_antisym a b), Hab.
  - now rewrite dt_cmp_refl.
  - now rewrite dt_cmp_refl.
Qed.

(** C2. On every service date and today the base method computes what the
    five-step algorithm computes: [earliestPossible] is [normalize(today)]
    plus 4 days, the minimum date is the later of it and the service date
    plus 6 days, the maximum date the later of it and the service date
    plus 16 days, where [normalize] attaches the America/Vancouver tzinfo
    and leaves the wall-clock fields as they are.  The two return pairs
    that are equal under [==] (or fail with the same exception), and a
    pair is returned whenever the service date is aware and the day
    offsets stay within range. *)
Theorem base_window_five_steps (service_date today : datetime) :
  (dt_tzinfo (normalize pytz_timezone today) = Some vancouver
   /\ wall_us (normalize pytz_timezone today) = wall_us today
   /\ (ordinal (normalize pytz_timezone today),
       hour (normalize pytz_timezone today),
       minute (normalize pytz_timezone today),
       second (normalize pytz_timezone today),
       microsecond (normalize pytz_timezone today))
      = (ordinal today, hour today, minute today, second today,
         microsecond today))
  /\ match base_window service_date today,
           five_step_window pytz_timezone service_date today with
     | OK (minimum, maximum), OK (minimumDate, maximumDate) =>
       dt_eq minimum minimumDate = true /\ dt_eq maximum maximumDate = true
     | Raise e, Raise e' => e = e'
     | _, _ => False
     end
  /\ (is_aware service_date = true ->
      in_range today 4 -> in_range service_date 6 -> in_range service_date 16 ->
      returns (base_window service_date today) = true).
Proof.
  split; [repeat split|split].
  - unfold ProhibitionBase_get_min_max_review_dates, five_step_window,
      MIN_DAYS_FROM_SCHEDULING_TO_REVIEW, MIN_DAYS_FROM_SERVED_TO_REVIEW,
      MAX_DAYS_FROM_SERVED_TO_REVIEW, normalize.
    destruct (add_days (replace_tzinfo today vancouver) 4) as [ep|];
      cbn [bind]; [|reflexivity].
    destruct (add_days service_date 6) as [l6|]; cbn [bind]; [|reflexivity].
    pose proof (later_of_two ep l6) as H6.
    destruct (dt_gt ep l6) as [b1|], (dt_max ep l6) as [m1|]; cbn [bind];
      try contradiction; [|exact H6].
    destruct (add_days service_date 16) as [l16|]; cbn [bind]; [|reflexivity].
    pose proof (later_of_two ep l16) as H16.
    destruct (dt_gt ep l16) as [b2|], (dt_max ep l16) as [m2|]; cbn [bind];
      try contradiction; [|exact H16].
    split; assumption.
  - intros Haw Ht H6 H16. unfold is_aware in Haw.
    destruct (dt_tzinfo service_date) as [tz|] eqn:Htz; [|discriminate].
    now rewrite (base_window_eq service_date today tz Htz Ht H6 H16).
Qed.

(** C3. For the base policy, when the service date plus 6 days and the
    service date plus 16 days are both earlier than [earliestPossible]
    ([normalize(today)] plus 4 days), the method returns the window whose
    minimum and maximum are both [earliestPossible]: a result, not an
    error. *)
Theorem base_window_collapses
  (service_date today earliestPossible legislatedMin legislatedMax : datetime) :
  add_days (normalize pytz_timezone today) 4 = OK earliestPossible ->
  add_days service_date 6 = OK legislatedMin ->
  add_days service_date 16 = OK legislatedMax ->
  dt_lt legislatedMin earliestPossible = OK true ->
  dt_lt legislatedMax earliestPossible = OK true ->
  base_window service_date today = OK (earliestPossible, earliestPossible)
  /\ dt_le earliestPossible earliestPossible = OK true.
Proof.
  intros Hep H6 H16 Hlt6 Hlt16. split; [|apply dt_le_refl].
  unfold ProhibitionBase_get_min_max_review_dates,
    MIN_DAYS_FROM_SCHEDULING_TO_REVIEW, MIN_DAYS_FROM_SERVED_TO_REVIEW,
    MAX_DAYS_FROM_SERVED_TO_REVIEW.
  unfold normalize in Hep. rewrite Hep, H6, H16. cbn [bind].
  assert (Hgt : forall l, dt_lt l earliestPossible = OK true ->
                          dt_gt earliestPossible l = OK true).
  { intros l. unfold dt_lt, dt_gt, dt_cmp.
    destruct (dt_tzinfo l) as [tl|], (dt_tzinfo earliestPossible) as [te|];
      cbn [bind]; try discriminate.
    - rewrite (Z.compare_antisym (utc_us l tl)).
      destruct (utc_us l tl ?= utc_us earliestPossible te); cbn; congruence.
    - rewrite (Z.compare_antisym (wall_us l)).
      destruct (wall_us l ?= wall_us earliestPossible); cbn; congruence. }
  rewrite (Hgt _ Hlt6), (Hgt _ Hlt16). reflexivity.
Qed.

(** C4. For every today and every two service dates the unlicenced-driver
    method returns the same result, and that result is [normalize(today)]
    plus 4 days for the minimum date and [normalize(today)] plus 16 days
    for the maximum date. *)
Theorem unlicenced_window_ignores_service_date
  (today service_date1 service_date2 : datetime) :
  unlicenced_window service_date1 today = unlicenced_window service_date2 today
  /\ unlicenced_window service_date1 today =
     (localized <- localize_timezone today ;;
      minimumDate <- add_days localized (MIN_DAYS_FROM_SCHEDULING_TO_REVIEW Unlicenced) ;;
      maximumDate <- add_days localized (MAX_DAYS_FROM_SERVED_TO_REVIEW Unlicenced) ;;
      OK (minimumDate, maximumDate))
  /\ MIN_DAYS_FROM_SCHEDULING_TO_REVIEW Unlicenced = 4
  /\ MAX_DAYS_FROM_SERVED_TO_REVIEW Unlicenced = 16
  /\ (forall localized,
        localize_timezone today = OK localized ->
        in_range localized 4 -> in_range localized 16 ->
        unlicenced_window service_date1 today =
        OK (shifted localized 4, shifted localized 16)).
Proof.
  split; [reflexivity|]. split; [|split; [reflexivity|split; [reflexivity|]]].
  - unfold UnlicencedDriver_get_min_max_review_dates.
    destruct (localize_timezone today) as [n|] eqn:Hn; cbn [bind];
      [|reflexivity].
    destruct (add_days n (MIN_DAYS_FROM_SCHEDULING_TO_REVIEW Unlicenced));
      cbn [bind]; reflexivity.
  - intros localized. apply unlicenced_window_eq.
Qed.

(** C10. The base method is defined only on a timezone-aware service date.
    For every naive service date the call raises instead of returning a
    window: the comparison of the aware earliest possible date with the
    naive service date plus 6 days is a [TypeError] (reached whenever the
    two additions before it stay in range). *)
Theorem base_window_naive_service_date (service_date today : datetime) :
  dt_tzinfo service_date = None ->
  returns (base_window service_date today) = false
  /\ (forall earliest legislated : datetime,
        add_days (replace_tzinfo today vancouver) 4 = OK earliest ->
        add_days service_date 6 = OK legislated ->
        dt_gt earliest legislated = Raise TypeError)
  /\ (in_range today 4 -> in_range service_date 6 ->
      base_window service_date today = Raise TypeError).
Proof.
  intros Hnaive.
  assert (Hcmp : forall earliest legislated : datetime,
    add_days (replace_tzinfo today vancouver) 4 = OK earliest ->
    add_days service_date 6 = OK legislated ->
    dt_gt earliest legislated = Raise TypeError).
  { intros e l He Hl.
    apply add_days_inv in He as [_ ->], Hl as [_ ->].
    unfold dt_gt. rewrite dt_cmp_mixed; [reflexivity|].
    unfold is_aware, shifted. simpl. now rewrite Hnaive. }
  split; [|split; [exact Hcmp|]].
  - unfold ProhibitionBase_get_min_max_review_dates,
      MIN_DAYS_FROM_SCHEDULING_TO_REVIEW, MIN_DAYS_FROM_SERVED_TO_REVIEW.
    destruct (add_days (replace_tzinfo today vancouver) 4) as [e|] eqn:He;
      cbn [bind]; [|reflexivity].
    destruct (add_days service_date 6) as [l|] eqn:Hl; cbn [bind];
      [|reflexivity].
    now rewrite (Hcmp e l eq_refl eq_refl).
  - intros Ht H6.
    unfold ProhibitionBase_get_min_max_review_dates,
      MIN_DAYS_FROM_SCHEDULING_TO_REVIEW, MIN_DAYS_FROM_SERVED_TO_REVIEW.
    rewrite (add_days_in_range (replace_tzinfo today vancouver) 4) by exact Ht.
    rewrite (add_days_in_range service_date 6) by exact H6.
    cbn [bind].
    rewrite (Hcmp _ _ (add_days_in_range (replace_tzinfo today vancouver) 4 Ht)
                     (add_days_in_range service_date 6 H6)).
    reflexivity.
Qed.

End ReviewWindow.

(** ** The type registry and the fee schedule *)

(** C5. [prohibition_factory] maps ["UL"] to [UnlicencedDriver], ["IRP"] to
    [ImmediateRoadside], ["ADP"] to [AdministrativeDriving], and on every
    other string returns [None] after one critical log line; it is a total
    function, so nothing is raised. *)
Theorem prohibition_factory_codes :
  snd (prohibition_factory "UL") = Some Unlicenced
  /\ snd (prohibition_factory "IRP") = Some Roadside
  /\ snd (prohibition_factory "ADP") = Some Administrative
  /\ (forall prohibition_type : string,
        prohibition_type <> "UL" -> prohibition_type <> "IRP" ->
        prohibition_type <> "ADP" ->
        prohibition_factory prohibition_type
        = ([(CRITICAL, "prohibition_type not known")], None)).
Proof.
  repeat split.
  intros s Hul Hirp Hadp. unfold prohibition_factory.
  apply String.eqb_neq in Hul, Hirp, Hadp.
  now rewrite Hul, Hirp, Hadp.
Qed.

(** C6. [amount_due] on the base policy (and on the two subclasses that
    inherit it) is 100 for ["WRIT"], 200 for ["ORAL"] and [None] for any
    other presentation type; on [UnlicencedDriver] it is 50 for every
    presentation type, ["ORAL"] included. *)
Theorem amount_due_schedule :
  WRITTEN_REVIEW_PRICE Base = 100 /\ ORAL_REVIEW_PRICE Base = 200
  /\ WRITTEN_REVIEW_PRICE Unlicenced = 50
  /\ (forall cls : prohibition,
        cls <> Unlicenced ->
        amount_due cls "WRIT" = Some (WRITTEN_REVIEW_PRICE Base)
        /\ amount_due cls "ORAL" = Some (ORAL_REVIEW_PRICE Base)
        /\ (forall presentation_type : string,
              presentation_type <> "WRIT" -> presentation_type <> "ORAL" ->
              amount_due cls presentation_type = None))
  /\ (forall presentation_type : string,
        amount_due Unlicenced presentation_type
        = Some (WRITTEN_REVIEW_PRICE Unlicenced))
  /\ amount_due Unlicenced "ORAL" = Some 50.
Proof.
  repeat split; try (destruct cls; [reflexivity|contradiction|reflexivity|reflexivity]).
  intros pt Hw Ho. apply String.eqb_neq in Hw, Ho.
  destruct cls; try contradiction; simpl; unfold ProhibitionBase_amount_due;
    now rewrite Hw, Ho.
Qed.

(** ** Checking a property over a range *)

Lemma In_zrange (count : nat) (lo z : Z) :
  In z (zrange lo count) <-> lo <= z < lo + Z.of_nat count.
Proof.
  revert lo. induction count as [|k IH]; intros lo.
  - simpl. lia.
  - cbn [zrange In]. rewrite IH. lia.
Qed.

Lemma all_from_spec (f : Z -> bool) (lo count : Z) :
  all_from f lo count = true ->
  forall z, lo <= z < lo + count -> f z = true.
Proof.
  unfold all_from. intros Hall z Hz.
  rewrite forallb_forall in Hall. apply Hall.
  apply In_zrange. lia.
Qed.

(** ** The calendar *)

(** The years of a 400-year cycle laid out as [_ord2ymd] counts them. *)
Lemma year_layout (n400 n100 n4 n1 : Z) :
  0 <= n400 < 25 -> 0 <= n100 < 4 -> 0 <= n4 < 25 -> 0 <= n1 < 4 ->
  let y := n400 * 400 + 1 + n100 * 100 + n4 * 4 + n1 in
  days_before_year y = DI400Y * n400 + DI100Y * n100 + DI4Y * n4 + 365 * n1
  /\ is_leap y = (n1 =? 3) && (negb (n4 =? 24) || (n100 =? 3)).
Proof.
  intros H400 H100 H4 H1.
  assert (Hall :
    all_from (fun a => all_from (fun b => all_from (fun c => all_from (fun d =>
      let y := a * 400 + 1 + b * 100 + c * 4 + d in
      (days_before_year y =? DI400Y * a + DI100Y * b + DI4Y * c + 365 * d)
      && Bool.eqb (is_leap y) ((d =? 3) && (negb (c =? 24) || (b =? 3))))
      0 4) 0 25) 0 4) 0 25 = true) by (vm_compute; reflexivity).
  pose proof (all_from_spec _ _ _ Hall n400 ltac:(lia)) as Ha.
  pose proof (all_from_spec _ _ _ Ha n100 ltac:(lia)) as Hb.
  pose proof (all_from_spec _ _ _ Hb n4 ltac:(lia)) as Hc.
  pose proof (all_from_spec _ _ _ Hc n1 ltac:(lia)) as Hd.
  cbv zeta in Hd. apply andb_true_iff in Hd as [Hdays Hleap].
  apply Z.eqb_eq in Hdays. apply Bool.eqb_prop in Hleap. auto.
Qed.

(** The last day of a leap year, which [_ord2ymd] treats apart. *)
Lemma leap_year_end (n400 n100 n4 : Z) :
  0 <= n400 < 25 -> 0 <= n100 < 4 -> 0 <= n4 < 25 ->
  n4 <> 24 \/ n100 = 3 ->
  let y := n400 * 400 + 1 + n100 * 100 + n4 * 4 + 3 in
  is_leap y = true
  /\ days_before_year y = DI400Y * n400 + DI100Y * n100 + DI4Y * n4 + 1095.
Proof.
  intros H400 H100 H4 Hleap y.
  destruct (year_layout n400 n100 n4 3 H400 H100 H4 ltac:(lia)) as [Hd Hl].
  fold y in Hd, Hl. split; [|lia].
  rewrite Hl. cbn [Z.eqb Pos.eqb andb].
  destruct Hleap as [Hn|Hn].
  - apply Z.eqb_neq in Hn. now rewrite Hn.
  - subst n100. apply orb_true_r.
Qed.

(** Month and day of a day of the year. *)
Lemma month_day_spec (leap : bool) (n : Z) :
  0 <= n < (if leap then 366 else 365) ->
  let '(m, d) := month_day leap n in
  1 <= m <= 12 /\ 1 <= d <= days_in_month leap m
  /\ days_before_month leap m + d = n + 1.
Proof.
  intros Hn.
  assert (Hall : forall b,
    all_from (fun k =>
      let '(m, d) := month_day b k in
      (1 <=? m) && (m <=? 12) && (1 <=? d) && (d <=? days_in_month b m)
      && (days_before_month b m + d =? k + 1))
      0 (if b then 366 else 365) = true)
    by (intros []; vm_compute; reflexivity).
  pose proof (all_from_spec _ _ _ (Hall leap) n ltac:(lia)) as H.
  cbv beta in H. destruct (month_day leap n) as [m d].
  repeat (apply andb_true_iff in H as [H ?]). lia.
Qed.

(** [_ord2ymd] yields a calendar date, and [_ymd2ord] takes it back. *)
Lemma ord2ymd_spec (n : Z) :
  1 <= n <= MAXORDINAL ->
  let '(y, m, d) := ord2ymd n in
  1 <= y <= 9999 /\ 1 <= m <= 12 /\ 1 <= d <= days_in_month (is_leap y) m
  /\ ymd2ord y m d = n.
Proof.
  unfold MAXORDINAL. intros Hn. unfold ord2ymd. cbv zeta.
  pose proof (Z.div_mod (n - 1) DI400Y ltac:(discriminate)) as E1.
  pose proof (Z.mod_pos_bound (n - 1) DI400Y ltac:(reflexivity)) as B1.
  set (n400 := (n - 1) / DI400Y) in *.
  set (r1 := (n - 1) mod DI400Y) in *.
  pose proof (Z.div_mod r1 DI100Y ltac:(discriminate)) as E2.
  pose proof (Z.mod_pos_bound r1 DI100Y ltac:(reflexivity)) as B2.
  set (n100 := r1 / DI100Y) in *.
  set (r2 := r1 mod DI100Y) in *.
  pose proof (Z.div_mod r2 DI4Y ltac:(discriminate)) as E3.
  pose proof (Z.mod_pos_bound r2 DI4Y ltac:(reflexivity)) as B3.
  set (n4 := r2 / DI4Y) in *.
  set (r3 := r2 mod DI4Y) in *.
  pose proof (Z.div_mod r3 365 ltac:(discriminate)) as E4.
  pose proof (Z.mod_pos_bound r3 365 ltac:(reflexivity)) as B4.
  set (n1 := r3 / 365) in *.
  set (r4 := r3 mod 365) in *.
  clearbody n400 r1 n100 r2 n4 r3 n1 r4.
  unfold DI400Y, DI100Y, DI4Y in E1, B1, E2, B2, E3, B3.
  assert (H400 : 0 <= n400 < 25) by lia.
  assert (H100 : 0 <= n100 <= 4) by lia.
  assert (H4 : 0 <= n4 < 25) by lia.
  assert (H1 : 0 <= n1 <= 4) by lia.
  destruct (Z.eqb_spec n1 4) as [Hn1|Hn1]; cbn [orb].
  - (* 31 December of a leap year inside a century *)
    assert (Hn4 : n4 <> 24) by lia.
    assert (Hc : 0 <= n100 < 4) by lia.
    destruct (leap_year_end n400 n100 n4 H400 Hc H4 (or_introl Hn4)) as [Hl Hd].
    replace (n400 * 400 + 1 + n100 * 100 + n4 * 4 + n1 - 1)
      with (n400 * 400 + 1 + n100 * 100 + n4 * 4 + 3) by lia.
    unfold ymd2ord. rewrite Hl, Hd. unfold DI400Y, DI100Y, DI4Y.
    change (days_before_month true 12) with 335.
    change (days_in_month true 12) with 31. lia.
  - destruct (Z.eqb_spec n100 4) as [Hn100|Hn100].
    + (* 31 December of a year divisible by 400 *)
      assert (Hz : n4 = 0 /\ n1 = 0 /\ r4 = 0) by lia.
      destruct Hz as (-> & -> & ->). subst n100.
      destruct (leap_year_end n400 3 24 H400 ltac:(lia) ltac:(lia)
                  (or_intror eq_refl)) as [Hl Hd].
      replace (n400 * 400 + 1 + 4 * 100 + 0 * 4 + 0 - 1)
        with (n400 * 400 + 1 + 3 * 100 + 24 * 4 + 3) by lia.
      unfold ymd2ord. rewrite Hl, Hd. unfold DI400Y, DI100Y, DI4Y.
      change (days_before_month true 12) with 335.
      change (days_in_month true 12) with 31. lia.
    + (* any other day *)
      assert (Hc : 0 <= n100 < 4) by lia.
      assert (Hy : 0 <= n1 < 4) by lia.
      destruct (year_layout n400 n100 n4 n1 H400 Hc H4 Hy) as [Hd Hl].
      cbv zeta in Hd, Hl. rewrite <- Hl.
      set (y := n400 * 400 + 1 + n100 * 100 + n4 * 4 + n1) in *.
      pose proof (month_day_spec (is_leap y) r4) as Hmd.
      destruct (month_day (is_leap y) r4) as [m d].
      unfold ymd2ord.
      assert (Hr : 0 <= r4 < (if is_leap y then 366 else 365))
        by (destruct (is_leap y); lia).
      specialize (Hmd Hr). unfold DI400Y, DI100Y, DI4Y in Hd.
      repeat split; lia.
Qed.

(** ** Digits *)

Lemma num2_pad2 (n : Z) :
  0 <= n < 100 -> num2 (digit (n / 10)) (digit (n mod 10)) = Some n.
Proof.
  intros Hn.
  assert (Hall :
    all_from (fun k =>
      match num2 (digit (k / 10)) (digit (k mod 10)) with
      | Some m => m =? k
      | None => false
      end) 0 100 = true) by (vm_compute; reflexivity).
  pose proof (all_from_spec _ _ _ Hall n ltac:(lia)) as H. cbv beta in H.
  destruct (num2 (digit (n / 10)) (digit (n mod 10))); [|discriminate].
  apply Z.eqb_eq in H. now subst.
Qed.

Lemma num4_pad4 (n : Z) :
  0 <= n < 10000 ->
  num4 (digit (n / 1000)) (digit (n / 100 mod 10)) (digit (n / 10 mod 10))
       (digit (n mod 10)) = Some n.
Proof.
  intros Hn.
  assert (Hall :
    all_from (fun k =>
      match num4 (digit (k / 1000)) (digit (k / 100 mod 10))
                 (digit (k / 10 mod 10)) (digit (k mod 10)) with
      | Some m => m =? k
      | None => false
      end) 0 10000 = true) by (vm_compute; reflexivity).
  pose proof (all_from_spec _ _ _ Hall n ltac:(lia)) as H. cbv beta in H.
  destruct (num4 _ _ _ _); [|discriminate].
  apply Z.eqb_eq in H. now subst.
Qed.

Lemma days_in_month_bound (leap : bool) (m : Z) :
  1 <= m <= 12 -> 28 <= days_in_month leap m <= 31.
Proof.
  intros Hm.
  assert (H : m = 1 \/ m = 2 \/ m = 3 \/ m = 4 \/ m = 5 \/ m = 6 \/ m = 7
              \/ m = 8 \/ m = 9 \/ m = 10 \/ m = 11 \/ m = 12) by lia.
  destruct leap;
    repeat (destruct H as [->|H]; [cbn; lia|]); subst m; cbn; lia.
Qed.

(** ** The external date format *)

(** C7 (as amended). For every valid timezone-aware timestamp [t] with no
    microseconds and a UTC offset of whole minutes, the external string of
    [t] has the shape [YYYY-MM-DD HH:MM:SS +HH:MM] (26 characters, a space
    before the offset at index 19, a colon inside it at index 23) and
    parsing it yields a timestamp equal to [t] under [==]. *)
Theorem vips_datetime_round_trip (t : datetime) (tz : tzinfo) :
  valid_datetime t -> valid_tzinfo tz -> vips_representable t tz ->
  exists s t',
    vips_datetime t = OK s
    /\ String.length s = 26%nat
    /\ String.get 19 s = Some " "%char
    /\ String.get 23 s = Some ":"%char
    /\ vips_str_to_datetime s = OK t'
    /\ dt_eq t' t = true.
Proof.
  intros Hv Htz (Haw & Hus & Hoff).
  destruct Hv as (Hord & Hh & Hm & Hs & _).
  pose proof (ord2ymd_spec (ordinal t) Hord) as Hymd.
  unfold vips_datetime. rewrite Haw. unfold year, month, day.
  destruct (ord2ymd (ordinal t)) as [[y m] d]. cbn [fst snd].
  destruct Hymd as (Hy & Hmo & Hd & Hback).
  pose proof (days_in_month_bound (is_leap y) m Hmo) as Hdim.
  unfold offset_string.
  set (oh := Z.abs (utcoffset tz) / 3600).
  set (om := (Z.abs (utcoffset tz) / 60) mod 60).
  assert (Hoh : 0 <= oh < 24)
    by (unfold valid_tzinfo in Htz; subst oh; split;
        [apply Z.div_pos | apply Z.div_lt_upper_bound]; lia).
  assert (Hom : 0 <= om < 60) by (subst om; apply Z.mod_pos_bound; lia).
  assert (Hsecs : oh * 3600 + om * 60 = Z.abs (utcoffset tz)).
  { subst oh om. pose proof (Z.abs_nonneg (utcoffset tz)).
    assert (Z.abs (utcoffset tz) mod 60 = 0)
      by (destruct (Z.abs_spec (utcoffset tz)) as [[_ ->]|[_ ->]];
          [exact Hoff | now apply Z.mod_opp_l_z]).
    generalize dependent (Z.abs (utcoffset tz)). intros a Ha Hmod.
    Z.div_mod_to_equations. lia. }
  clearbody oh om.
  assert (Hvalid :
    forall tz', make_datetime y m d (hour t) (minute t) (second t) 0 tz'
                = Some (mkDatetime (ordinal t) (hour t) (minute t) (second t) 0 tz')).
  { intros tz'. unfold make_datetime. rewrite Hback.
    replace (_ && _) with true; [reflexivity|].
    symmetry. repeat (apply andb_true_intro; split); lia. }
  destruct (utcoffset tz <? 0) eqn:Hneg;
    (eexists; eexists; split; [reflexivity|];
     split; [reflexivity|]; split; [reflexivity|]; split; [reflexivity|];
     cbv [append pad4 pad2 vips_str_to_datetime strict_iso8601 String.get
          String.length substring Nat.eqb Ascii.eqb Bool.eqb andb orb bind
          parse_date];
     rewrite (num4_pad4 y), (num2_pad2 m), (num2_pad2 d), (num2_pad2 (hour t)),
       (num2_pad2 (minute t)), (num2_pad2 (second t)), (num2_pad2 oh),
       (num2_pad2 om) by lia;
     rewrite (proj2 (Z.ltb_lt oh 24)), (proj2 (Z.ltb_lt om 60)) by lia;
     rewrite Hvalid; split; [reflexivity|];
     unfold dt_eq, dt_cmp; cbn [dt_tzinfo]; rewrite Haw;
     replace (_ ?= _) with Eq; [reflexivity|];
     symmetry; apply Z.compare_eq_iff;
     unfold utc_us, wall_us; cbn [ordinal hour minute second microsecond utcoffset];
     rewrite Hsecs;
     first [apply Z.ltb_lt in Hneg; lia | apply Z.ltb_ge in Hneg; lia]).
Qed.

(** ** The weekday enumerator, unfolded *)




(** ** Weekdays between two dates *)



(** ** Friendly time slots *)

Lemma append_assoc (a b c : string) :
  ((a ++ b) ++ c = a ++ (b ++ c))%string.
Proof.
  induction a as [|x a IH]; [reflexivity|]. cbn [append]. now rewrite IH.
Qed.

Lemma time_slots_to_friendly_times_eq (time_slots : list ScheduleSlot)
  (presentation_type : string) :
  time_slots_to_friendly_times time_slots presentation_type
  = map friendly_slot (filter (slot_selected presentation_type) time_slots).
Proof.
  induction time_slots as [|item rest IH]; [reflexivity|].
  cbn [time_slots_to_friendly_times filter]. unfold slot_selected at 1.
  destruct (available item && String.eqb (presentation_tag item) presentation_type);
    cbn [map]; now rewrite IH.
Qed.

Lemma hour12_no_leading_zero (d : datetime) :
  0 <= hour d < 24 ->
  1 <= hour12 d <= 12
  /\ exists c rest, decimal (hour12 d) = String c rest /\ c <> "0"%char.
Proof.
  intros Hh. unfold hour12.
  assert (Hall :
    all_from (fun k =>
      let h := if k mod 12 =? 0 then 12 else k mod 12 in
      (1 <=? h) && (h <=? 12)
      && match decimal h with
         | String c _ => negb (Ascii.eqb c "0")
         | EmptyString => false
         end) 0 24 = true) by (vm_compute; reflexivity).
  pose proof (all_from_spec _ _ _ Hall (hour d) ltac:(lia)) as H.
  cbv beta zeta in H.
  destruct (hour d mod 12 =? 0);
    (apply andb_true_iff in H as [H Hc]; apply andb_true_iff in H as [H1 H2];
     split; [lia|];
     match type of Hc with
     | match decimal ?h with _ => _ end = true =>
       destruct (decimal h) as [|c rest]; [discriminate|];
       exists c, rest; split; [reflexivity|];
       apply negb_true_iff, Ascii.eqb_neq in Hc; exact Hc
     end).
Qed.

(** C9 (as amended). [time_slots_to_friendly_times] returns, in input order,
    one friendly slot per input slot that is available and whose tag is the
    presentation type; its label is the start's weekday and month
    abbreviations, day and year, then the twelve-hour start and end times
    with minutes and AM or PM, the hour without a leading zero; and on the
    five-slot fixture with mode ["ORAL"] the labels are the five strings
    from 9:00AM to 1:30PM on Fri, Sep 4, 2020. *)
Theorem friendly_times_spec :
  (forall (time_slots : list ScheduleSlot) (presentation_type : string),
     time_slots_to_friendly_times time_slots presentation_type
     = map friendly_slot
         (filter (fun item =>
                    available item
                    && String.eqb (presentation_tag item) presentation_type)
                 time_slots))
  /\ (forall item : ScheduleSlot,
        let start := reviewStartDtm item in
        let end_ := reviewEndDtm item in
        slot_start (friendly_slot item) = start
        /\ slot_end (friendly_slot item) = end_
        /\ label (friendly_slot item)
           = (weekday_abbr (weekday start) ++ ", " ++ month_abbr (month start)
              ++ " " ++ decimal (day start) ++ ", " ++ decimal (year start)
              ++ " - "
              ++ decimal (hour12 start) ++ ":" ++ pad2 (minute start)
              ++ (if (hour start <? 12)%Z then "AM" else "PM")
              ++ " to "
              ++ decimal (hour12 end_) ++ ":" ++ pad2 (minute end_)
              ++ (if (hour end_ <? 12)%Z then "AM" else "PM"))%string)
  /\ (forall d : datetime,
        valid_datetime d ->
        1 <= hour12 d <= 12
        /\ exists c rest, decimal (hour12 d) = String c rest /\ c <> "0"%char)
  /\ map label (time_slots_to_friendly_times vips_schedule_200 "ORAL")
     = ["Fri, Sep 4, 2020 - 9:00AM to 9:30AM";
        "Fri, Sep 4, 2020 - 10:00AM to 10:30AM";
        "Fri, Sep 4, 2020 - 11:00AM to 11:30AM";
        "Fri, Sep 4, 2020 - 12:00PM to 12:30PM";
        "Fri, Sep 4, 2020 - 1:00PM to 1:30PM"]%string.
Proof.
  split; [exact time_slots_to_friendly_times_eq|].
  split; [|split].
  - intros item start end_. repeat split.
    unfold friendly_slot, friendly_label, friendly_time. cbn [label].
    fold start end_.
    now rewrite !append_assoc.
  - intros d (_ & Hh & _). now apply hour12_no_leading_zero.
  - vm_compute. reflexivity.
Qed.

(** ** The test suite's cases *)

(** [test_vips_datetime_conversion], both parameter sets. *)
Example test_vips_datetime_conversion :
  (exists actual expected,
     vips_str_to_datetime "2019-01-02 17:30:00 -08:00" = OK actual
     /\ parse_date "2019-01-02 17:30:00-0800" = Some expected
     /\ dt_eq actual expected = true)
  /\ (exists actual expected,
        vips_str_to_datetime "2019-01-02 17:30:00 -07:00" = OK actual
        /\ parse_date "2019-01-02 17:30:00-0700" = Some expected
        /\ dt_eq actual expected = true).
Proof.
  split; do 2 eexists;
    (split; [vm_compute; reflexivity|]); (split; [vm_compute; reflexivity|]);
    vm_compute; reflexivity.
Qed.

(** [test_datetime_to_vips_string]: midnight 2020-11-22, localized. *)
Example test_datetime_to_vips_string :
  exists date_under_test,
    localize_timezone_spec PST (midnight 2020 11 22) = OK date_under_test
    /\ vips_datetime date_under_test = OK "2020-11-22 00:00:00 -08:00"%string.
Proof.
  eexists. split; [vm_compute; reflexivity|]. vm_compute. reflexivity.
Qed.

(** The enumerator with a time of day on [start]: served 2020-09-01 at
    9:00, up to midnight 2020-09-07, the Monday is still the last day; and
    no day at all when the first day is after the last. *)
Example weekdays_between_with_time_of_day :
  (exists dates,
     list_of_weekdays_dates_between sample_service_date (midnight 2020 9 7)
     = OK dates
     /\ map iso_date_string dates
        = ["2020-09-01"; "2020-09-02"; "2020-09-03"; "2020-09-04";
           "2020-09-07"]%string)
  /\ list_of_weekdays_dates_between (midnight 2020 9 7) sample_service_date
     = OK [].
Proof.
  split; [|vm_compute; reflexivity].
  eexists. split; [vm_compute; reflexivity|].
  vm_compute. reflexivity.
Qed.

(** ** What the claims as first worded miss *)

(** The external format has no field below the second, so a timestamp with
    microseconds does not come back: C7 does not hold of every
    timezone-aware timestamp. *)
Lemma vips_round_trip_drops_microseconds :
  ~ (forall t : datetime,
       valid_datetime t -> is_aware t = true ->
       exists s t',
         vips_datetime t = OK s
         /\ vips_str_to_datetime s = OK t'
         /\ dt_eq t' t = true).
Proof.
  intros Hall.
  destruct (Hall sample_timestamp_us) as (s & t' & Hs & Ht' & Heq).
  - vm_compute. repeat split; discriminate.
  - reflexivity.
  - vm_compute in Hs. injection Hs as <-.
    vm_compute in Ht'. injection Ht' as <-.
    vm_compute in Heq. discriminate.
Qed.

(** A slot with the right tag that is not available yields no friendly
    slot: C9 does not hold with the tag as the only filter. *)
Lemma friendly_times_skip_unavailable :
  ~ (forall (time_slots : list ScheduleSlot) (presentation_type : string),
       time_slots_to_friendly_times time_slots presentation_type
       = map friendly_slot
           (filter (fun item =>
                      String.eqb (presentation_tag item) presentation_type)
                   time_slots)).
Proof.
  intros Hall. specialize (Hall [unavailable_slot] "ORAL"%string).
  vm_compute in Hall. discriminate.
Qed.

(** ** Instances *)

Lemma review_window_ordered_witness :
  valid_review_inputs (localize_timezone_spec (pytz_zones "America/Vancouver"))
    Roadside sample_service_date sample_today
  /\ exists minimum maximum,
       get_min_max_review_dates pytz_zones
         (localize_timezone_spec (pytz_zones "America/Vancouver"))
         Roadside sample_service_date sample_today = OK (minimum, maximum)
       /\ dt_le minimum maximum = OK true.
Proof.
  assert (Hvalid :
    valid_review_inputs (localize_timezone_spec (pytz_zones "America/Vancouver"))
      Roadside sample_service_date sample_today)
    by (vm_compute; repeat split; discriminate).
  split; [exact Hvalid|].
  exact (review_window_ordered pytz_zones _ Roadside sample_service_date
           sample_today Hvalid).
Defined.

Lemma base_window_five_steps_witness :
  is_aware sample_service_date = true
  /\ in_range sample_today 4
  /\ in_range sample_service_date 6
  /\ in_range sample_service_date 16
  /\ returns (ProhibitionBase_get_min_max_review_dates pytz_zones
                sample_service_date sample_today) = true.
Proof.
  assert (Ht : in_range sample_today 4) by (vm_compute; repeat split; discriminate).
  assert (H6 : in_range sample_service_date 6)
    by (vm_compute; repeat split; discriminate).
  assert (H16 : in_range sample_service_date 16)
    by (vm_compute; repeat split; discriminate).
  repeat (split; [first [reflexivity | assumption]|]).
  destruct (base_window_five_steps pytz_zones sample_service_date sample_today)
    as (_ & _ & Hreturns).
  exact (Hreturns eq_refl Ht H6 H16).
Defined.

Lemma base_window_collapses_witness :
  dt_lt (shifted sample_service_date 6)
        (shifted (normalize pytz_zones sample_late_today) 4) = OK true
  /\ dt_lt (shifted sample_service_date 16)
           (shifted (normalize pytz_zones sample_late_today) 4) = OK true
  /\ ProhibitionBase_get_min_max_review_dates pytz_zones
       sample_service_date sample_late_today
     = OK (shifted (normalize pytz_zones sample_late_today) 4,
           shifted (normalize pytz_zones sample_late_today) 4).
Proof.
  split; [vm_compute; reflexivity|]. split; [vm_compute; reflexivity|].
  apply (base_window_collapses pytz_zones sample_service_date sample_late_today
           (shifted (normalize pytz_zones sample_late_today) 4)
           (shifted sample_service_date 6) (shifted sample_service_date 16));
    vm_compute; reflexivity.
Defined.

Lemma unlicenced_window_ignores_service_date_witness :
  UnlicencedDriver_get_min_max_review_dates
    (localize_timezone_spec PDT) sample_service_date sample_today
  = OK (shifted (replace_tzinfo sample_today PDT) 4,
        shifted (replace_tzinfo sample_today PDT) 16).
Proof.
  destruct (unlicenced_window_ignores_service_date (localize_timezone_spec PDT)
              sample_today sample_service_date sample_late_today)
    as (_ & _ & _ & _ & Hwindow).
  apply Hwindow.
  - vm_compute. reflexivity.
  - vm_compute. repeat split; discriminate.
  - vm_compute. repeat split; discriminate.
Defined.

Lemma prohibition_factory_codes_witness :
  prohibition_factory "XX" = ([(CRITICAL, "prohibition_type not known"%string)], None).
Proof.
  destruct prohibition_factory_codes as (_ & _ & _ & Hunknown).
  apply Hunknown; discriminate.
Defined.

Lemma amount_due_schedule_witness :
  amount_due Roadside "WRIT" = Some 100
  /\ amount_due Administrative "ORAL" = Some 200
  /\ amount_due Base "BOTH" = None.
Proof.
  destruct amount_due_schedule as (_ & _ & _ & Hbase & _).
  destruct (Hbase Roadside ltac:(discriminate)) as (Hwrit & _ & _).
  destruct (Hbase Administrative ltac:(discriminate)) as (_ & Horal & _).
  destruct (Hbase Base ltac:(discriminate)) as (_ & _ & Hother).
  split; [exact Hwrit|]. split; [exact Horal|].
  apply Hother; discriminate.
Defined.

Lemma vips_datetime_round_trip_witness :
  exists s t',
    vips_datetime sample_timestamp = OK s
    /\ String.length s = 26%nat
    /\ String.get 19 s = Some " "%char
    /\ String.get 23 s = Some ":"%char
    /\ vips_str_to_datetime s = OK t'
    /\ dt_eq t' sample_timestamp = true.
Proof.
  apply (vips_datetime_round_trip sample_timestamp PST).
  - vm_compute. repeat split; discriminate.
  - vm_compute. split; reflexivity.
  - vm_compute. repeat split; reflexivity.
Defined.


Lemma friendly_times_spec_witness :
  1 <= hour12 sample_timestamp <= 12
  /\ exists c rest,
       decimal (hour12 sample_timestamp) = String c rest /\ c <> "0"%char.
Proof.
  destruct friendly_times_spec as (_ & _ & Hhour & _).
  apply Hhour. vm_compute. repeat split; discriminate.
Defined.

Lemma base_window_naive_service_date_witness :
  returns (ProhibitionBase_get_min_max_review_dates pytz_zones
             (midnight 2020 9 1) sample_today) = false
  /\ ProhibitionBase_get_min_max_review_dates pytz_zones
       (midnight 2020 9 1) sample_today = Raise TypeError.
Proof.
  destruct (base_window_naive_service_date pytz_zones (midnight 2020 9 1)
              sample_today eq_refl) as (Hraises & _ & Htype).
  split; [exact Hraises|].
  apply Htype; vm_compute; repeat split; discriminate.
Defined.

(** * Further properties of [prohibitions.py] *)

Section WindowProperties.

Variable pytz_timezone : string -> tzinfo.
Variable localize_timezone : datetime -> result datetime.

Local Notation "'base_window'" :=
  (ProhibitionBase_get_min_max_review_dates pytz_timezone).
Local Notation "'unlicenced_window'" :=
  (UnlicencedDriver_get_min_max_review_dates localize_timezone).
Local Notation "'vancouver'" := (pytz_timezone "America/Vancouver").

(** What a returned base window tells about its inputs and itself. *)
Lemma base_window_inv (service_date today minimum maximum : datetime) :
  base_window service_date today = OK (minimum, maximum) ->
  exists tz,
    dt_tzinfo service_date = Some tz
    /\ in_range today 4 /\ in_range service_date 6 /\ in_range service_date 16
    /\ minimum =
       (if utc_us (shifted service_date 6) tz
           <? utc_us (shifted (replace_tzinfo today vancouver) 4) vancouver
        then shifted (replace_tzinfo today vancouver) 4
        else shifted service_date 6)
    /\ maximum =
       (if utc_us (shifted service_date 16) tz
           <? utc_us (shifted (replace_tzinfo today vancouver) 4) vancouver
        then shifted (replace_tzinfo today vancouver) 4
        else shifted service_date 16).
Proof.
  intros Hw.
  pose proof (window_returns_valid pytz_timezone (fun d => OK d) Base
                service_date today _ Hw) as (Haw & Ht & H6 & H16).
  unfold is_aware in Haw.
  destruct (dt_tzinfo service_date) as [tz|] eqn:Htz; [|discriminate].
  exists tz. rewrite (base_window_eq pytz_timezone service_date today tz
                        Htz Ht H6 H16) in Hw.
  injection Hw as <- <-. auto 6.
Qed.

(** X1. A returned base window never starts before the earliest possible
    date (today in Vancouver plus 4 days) nor before the service date plus
    6 days, and never ends before the earliest possible date nor before the
    service date plus 16 days. *)
Theorem base_window_lower_bounds
  (service_date today minimum maximum : datetime) :
  base_window service_date today = OK (minimum, maximum) ->
  let earliest := shifted (replace_tzinfo today vancouver) 4 in
  dt_le earliest minimum = OK true
  /\ dt_le (shifted service_date 6) minimum = OK true
  /\ dt_le earliest maximum = OK true
  /\ dt_le (shifted service_date 16) maximum = OK true.
Proof.
  intros Hw earliest.
  destruct (base_window_inv _ _ _ _ Hw) as (tz & Htz & _ & _ & _ & -> & ->).
  fold earliest.
  assert (Hle : forall a b ta tb,
             dt_tzinfo a = Some ta -> dt_tzinfo b = Some tb ->
             utc_us a ta <= utc_us b tb -> dt_le a b = OK true).
  { intros a b ta tb Ha Hb Hab. unfold dt_le.
    rewrite (dt_cmp_aware a b ta tb Ha Hb). cbn [bind].
    destruct (Z.compare_spec (utc_us a ta) (utc_us b tb)); try reflexivity; lia. }
  destruct (utc_us (shifted service_date 6) tz <? utc_us earliest vancouver) eqn:H6;
    destruct (utc_us (shifted service_date 16) tz <? utc_us earliest vancouver) eqn:H16;
    try apply Z.ltb_lt in H6; try apply Z.ltb_ge in H6;
    try apply Z.ltb_lt in H16; try apply Z.ltb_ge in H16;
    repeat split;
    first [ apply dt_le_refl
          | eapply Hle;
            [ first [exact Htz | reflexivity]
            | first [exact Htz | reflexivity]
            | unfold utc_us, wall_us, shifted in *; simpl in *; lia ] ].
Qed.

(** X2. For a service date whose tzinfo has a fixed UTC offset (the tzinfo
    of this development: a pytz-localized or ISO-8601-parsed value, not a
    zone whose offset changes with the date), a returned base window is
    never longer than 10 days: [maximum - minimum] is a timedelta between
    zero and ten days. *)
Theorem base_window_width (service_date today minimum maximum : datetime) :
  base_window service_date today = OK (minimum, maximum) ->
  exists width,
    sub_us maximum minimum = OK width /\ 0 <= width <= 10 * DAY_US.
Proof.
  intros Hw.
  destruct (base_window_inv _ _ _ _ Hw) as (tz & Htz & _ & _ & _ & -> & ->).
  set (earliest := shifted (replace_tzinfo today vancouver) 4).
  assert (H10 : utc_us (shifted service_date 16) tz
                = utc_us (shifted service_date 6) tz + 10 * DAY_US)
    by (unfold utc_us, wall_us, shifted, DAY_US; simpl; lia).
  unfold sub_us.
  destruct (utc_us (shifted service_date 6) tz <? utc_us earliest vancouver) eqn:H6;
    destruct (utc_us (shifted service_date 16) tz <? utc_us earliest vancouver) eqn:H16;
    try apply Z.ltb_lt in H6; try apply Z.ltb_ge in H6;
    try apply Z.ltb_lt in H16; try apply Z.ltb_ge in H16;
    cbn [shifted replace_tzinfo dt_tzinfo earliest]; try rewrite Htz;
    eexists; (split; [reflexivity|]); unfold DAY_US in *; lia.
Qed.


(** X4. The base method reads only the calendar and clock fields of
    [today]: its tzinfo is replaced, not converted, so two values of today
    with the same fields give the same result whatever their tzinfo. *)
Theorem base_window_ignores_today_tzinfo (service_date today today' : datetime) :
  wall_fields today = wall_fields today' ->
  base_window service_date today = base_window service_date today'.
Proof.
  unfold wall_fields. intros Hf. injection Hf as Ho Hh Hm Hs Hu.
  unfold ProhibitionBase_get_min_max_review_dates.
  replace (replace_tzinfo today' vancouver) with (replace_tzinfo today vancouver);
    [reflexivity|].
  unfold replace_tzinfo. now rewrite Ho, Hh, Hm, Hs, Hu.
Qed.

Lemma dt_le_aware (a b : datetime) (ta tb : tzinfo) :
  dt_tzinfo a = Some ta -> dt_tzinfo b = Some tb ->
  utc_us a ta <= utc_us b tb -> dt_le a b = OK true.
Proof.
  intros Ha Hb Hab. unfold dt_le.
  rewrite (dt_cmp_aware a b ta tb Ha Hb). cbn [bind].
  destruct (Z.compare_spec (utc_us a ta) (utc_us b tb)); try reflexivity; lia.
Qed.

Lemma dt_le_aware_inv (a b : datetime) (ta tb : tzinfo) :
  dt_tzinfo a = Some ta -> dt_tzinfo b = Some tb ->
  dt_le a b = OK true -> utc_us a ta <= utc_us b tb.
Proof.
  intros Ha Hb. unfold dt_le.
  rewrite (dt_cmp_aware a b ta tb Ha Hb). cbn [bind].
  destruct (Z.compare_spec (utc_us a ta) (utc_us b tb)); try discriminate; lia.
Qed.

(** Closes an order goal between two ends of base windows, each end being
    the earliest possible date or a shifted service date. *)
Ltac window_order Htz Htz' :=
  first [ apply dt_le_refl
        | eapply dt_le_aware;
          [ first [exact Htz | exact Htz' | reflexivity]
          | first [exact Htz' | exact Htz | reflexivity]
          | unfold utc_us, wall_us, shifted, replace_tzinfo in *;
            simpl in *; lia ] ].

(** X5. The base window moves forward with today: a later today (by its
    calendar and clock fields) never gives an earlier minimum or maximum
    date for the same service date. *)
Theorem base_window_monotone_today
  (service_date today today' minimum maximum minimum' maximum' : datetime) :
  wall_us today <= wall_us today' ->
  base_window service_date today = OK (minimum, maximum) ->
  base_window service_date today' = OK (minimum', maximum') ->
  dt_le minimum minimum' = OK true /\ dt_le maximum maximum' = OK true.
Proof.
  intros Hle Hw Hw'.
  destruct (base_window_inv _ _ _ _ Hw) as (tz & Htz & _ & _ & _ & -> & ->).
  destruct (base_window_inv _ _ _ _ Hw') as (tz' & Htz' & _ & _ & _ & -> & ->).
  assert (tz' = tz) by congruence. subst tz'.
  destruct (Z.ltb_spec (utc_us (shifted service_date 6) tz)
              (utc_us (shifted (replace_tzinfo today vancouver) 4) vancouver));
    destruct (Z.ltb_spec (utc_us (shifted service_date 16) tz)
                (utc_us (shifted (replace_tzinfo today vancouver) 4) vancouver));
    destruct (Z.ltb_spec (utc_us (shifted service_date 6) tz)
                (utc_us (shifted (replace_tzinfo today' vancouver) 4) vancouver));
    destruct (Z.ltb_spec (utc_us (shifted service_date 16) tz)
                (utc_us (shifted (replace_tzinfo today' vancouver) 4) vancouver));
    split; window_order Htz Htz.
Qed.

(** X6. For service dates whose tzinfo has a fixed UTC offset (the tzinfo
    of this development, not a zone whose offset changes with the date),
    the base window moves forward with the service date: a later service
    date never gives an earlier minimum or maximum date for the same
    today. *)
Theorem base_window_monotone_service_date
  (service_date service_date' today minimum maximum minimum' maximum' : datetime) :
  dt_le service_date service_date' = OK true ->
  base_window service_date today = OK (minimum, maximum) ->
  base_window service_date' today = OK (minimum', maximum') ->
  dt_le minimum minimum' = OK true /\ dt_le maximum maximum' = OK true.
Proof.
  intros Hle Hw Hw'.
  destruct (base_window_inv _ _ _ _ Hw) as (tz & Htz & _ & _ & _ & -> & ->).
  destruct (base_window_inv _ _ _ _ Hw') as (tz' & Htz' & _ & _ & _ & -> & ->).
  apply (dt_le_aware_inv _ _ tz tz' Htz Htz') in Hle.
  destruct (Z.ltb_spec (utc_us (shifted service_date 6) tz)
              (utc_us (shifted (replace_tzinfo today vancouver) 4) vancouver));
    destruct (Z.ltb_spec (utc_us (shifted service_date 16) tz)
                (utc_us (shifted (replace_tzinfo today vancouver) 4) vancouver));
    destruct (Z.ltb_spec (utc_us (shifted service_date' 6) tz')
                (utc_us (shifted (replace_tzinfo today vancouver) 4) vancouver));
    destruct (Z.ltb_spec (utc_us (shifted service_date' 16) tz')
                (utc_us (shifted (replace_tzinfo today vancouver) 4) vancouver));
    split; window_order Htz Htz'.
Qed.

(** X7. Both dates of a returned base window are timezone-aware, and each
    is one of two candidates: the minimum is the earliest possible date or
    the service date plus 6 days, the maximum the earliest possible date or
    the service date plus 16 days; no other date is produced. *)
Theorem base_window_dates (service_date today minimum maximum : datetime) :
  base_window service_date today = OK (minimum, maximum) ->
  let earliest := shifted (replace_tzinfo today vancouver) 4 in
  is_aware minimum = true /\ is_aware maximum = true
  /\ (minimum = earliest \/ minimum = shifted service_date 6)
  /\ (maximum = earliest \/ maximum = shifted service_date 16).
Proof.
  intros Hw earliest.
  destruct (base_window_inv _ _ _ _ Hw) as (tz & Htz & _ & _ & _ & -> & ->).
  fold earliest. unfold is_aware.
  destruct (utc_us (shifted service_date 6) tz <? utc_us earliest vancouver);
    destruct (utc_us (shifted service_date 16) tz <? utc_us earliest vancouver);
    cbn [shifted earliest replace_tzinfo dt_tzinfo]; rewrite ?Htz; auto.
Qed.

(** X8. How the base method fails.  It raises [TypeError] exactly when the
    service date is naive and the first two additions stay in range; it
    raises [OverflowError] exactly when today plus 4 days or the service
    date plus 6 days leaves [datetime]'s range, or the service date is
    aware and its date plus 16 days does; it raises nothing else. *)
Theorem base_window_failures (service_date today : datetime) :
  (base_window service_date today = Raise TypeError <->
   dt_tzinfo service_date = None
   /\ in_range today 4 /\ in_range service_date 6)
  /\ (base_window service_date today = Raise OverflowError <->
      ~ in_range today 4 \/ ~ in_range service_date 6
      \/ (is_aware service_date = true /\ ~ in_range service_date 16))
  /\ (forall e, base_window service_date today = Raise e ->
                e = TypeError \/ e = OverflowError).
Proof.
  assert (Hcases :
    (~ in_range today 4 /\ base_window service_date today = Raise OverflowError)
    \/ (in_range today 4 /\ ~ in_range service_date 6
        /\ base_window service_date today = Raise OverflowError)
    \/ (in_range today 4 /\ in_range service_date 6
        /\ dt_tzinfo service_date = None
        /\ base_window service_date today = Raise TypeError)
    \/ (in_range today 4 /\ in_range service_date 6
        /\ is_aware service_date = true /\ ~ in_range service_date 16
        /\ base_window service_date today = Raise OverflowError)
    \/ (in_range today 4 /\ in_range service_date 6
        /\ is_aware service_date = true /\ in_range service_date 16
        /\ returns (base_window service_date today) = true)).
  { destruct (in_range_dec today 4) as [Ht|Ht].
    2:{ left. split; [exact Ht|].
        unfold ProhibitionBase_get_min_max_review_dates,
          MIN_DAYS_FROM_SCHEDULING_TO_REVIEW.
        now rewrite (add_days_out_of_range (replace_tzinfo today vancouver) 4 Ht). }
    destruct (in_range_dec service_date 6) as [H6|H6].
    2:{ right; left. refine (conj Ht (conj H6 _)).
        unfold ProhibitionBase_get_min_max_review_dates,
          MIN_DAYS_FROM_SCHEDULING_TO_REVIEW, MIN_DAYS_FROM_SERVED_TO_REVIEW.
        rewrite (add_days_in_range (replace_tzinfo today vancouver) 4 Ht).
        now rewrite (add_days_out_of_range service_date 6 H6). }
    destruct (dt_tzinfo service_date) as [tz|] eqn:Htz.
    2:{ right; right; left. refine (conj Ht (conj H6 (conj eq_refl _))).
        unfold ProhibitionBase_get_min_max_review_dates,
          MIN_DAYS_FROM_SCHEDULING_TO_REVIEW, MIN_DAYS_FROM_SERVED_TO_REVIEW.
        rewrite (add_days_in_range (replace_tzinfo today vancouver) 4 Ht).
        rewrite (add_days_in_range service_date 6 H6). cbn [bind].
        unfold dt_gt. rewrite dt_cmp_mixed; [reflexivity|].
        unfold is_aware, shifted. simpl. now rewrite Htz. }
    assert (Haw : is_aware service_date = true)
      by (unfold is_aware; now rewrite Htz).
    destruct (in_range_dec service_date 16) as [H16|H16].
    - do 4 right. refine (conj Ht (conj H6 (conj Haw (conj H16 _)))).
      now rewrite (base_window_eq pytz_timezone service_date today tz Htz Ht H6 H16).
    - right; right; right; left.
      refine (conj Ht (conj H6 (conj Haw (conj H16 _)))).
      unfold ProhibitionBase_get_min_max_review_dates,
        MIN_DAYS_FROM_SCHEDULING_TO_REVIEW, MIN_DAYS_FROM_SERVED_TO_REVIEW,
        MAX_DAYS_FROM_SERVED_TO_REVIEW.
      rewrite (add_days_in_range (replace_tzinfo today vancouver) 4 Ht).
      rewrite (add_days_in_range service_date 6 H6). cbn [bind].
      unfold dt_gt at 1.
      rewrite (dt_cmp_aware _ _ vancouver tz) by (reflexivity || exact Htz).
      cbn [bind].
      now rewrite (add_days_out_of_range service_date 16 H16). }
  destruct Hcases as [(Ht & Hr)|[(Ht & H6 & Hr)|[(Ht & H6 & Hn & Hr)
                     |[(Ht & H6 & Haw & H16 & Hr)|(Ht & H6 & Haw & H16 & Hr)]]]].
  - rewrite Hr. split; [|split].
    + split; [discriminate | intros (_ & Ht' & _); contradiction].
    + split; [intros _; now left | reflexivity].
    + intros e He. injection He as <-. now right.
  - rewrite Hr. split; [|split].
    + split; [discriminate | intros (_ & _ & H6'); contradiction].
    + split; [intros _; right; now left | reflexivity].
    + intros e He. injection He as <-. now right.
  - rewrite Hr. split; [|split].
    + split; [intros _; auto | reflexivity].
    + split; [discriminate|].
      intros [Ht'|[H6'|[Haw _]]]; try contradiction.
      unfold is_aware in Haw. rewrite Hn in Haw. discriminate.
    + intros e He. injection He as <-. now left.
  - rewrite Hr. split; [|split].
    + split; [discriminate|].
      intros (Hn & _). unfold is_aware in Haw. rewrite Hn in Haw. discriminate.
    + split; [intros _; right; right; auto | reflexivity].
    + intros e He. injection He as <-. now right.
  - destruct (base_window service_date today) as [w|e']; [|discriminate].
    split; [|split].
    + split; [discriminate|].
      intros (Hn & _). unfold is_aware in Haw. rewrite Hn in Haw. discriminate.
    + split; [discriminate|].
      intros [Ht'|[H6'|[_ H16']]]; contradiction.
    + intros e He. discriminate.
Qed.

(** X9. A returned unlicenced-driver window is never collapsed: its maximum
    date is its minimum date moved by exactly 12 days, with the same time
    of day and tzinfo. *)
Theorem unlicenced_window_twelve_days
  (service_date today minimum maximum : datetime) :
  unlicenced_window service_date today = OK (minimum, maximum) ->
  maximum = shifted minimum 12
  /\ dt_lt minimum maximum = OK true
  /\ sub_us maximum minimum = OK (12 * DAY_US).
Proof.
  intros Hw.
  pose proof (window_returns_valid (fun _ => PST) localize_timezone Unlicenced
                service_date today _ Hw) as (n & Hn & H4 & H16).
  cbn [get_min_max_review_dates] in Hw.
  rewrite (unlicenced_window_eq localize_timezone service_date today n Hn H4 H16)
    in Hw.
  injection Hw as <- <-.
  split; [|split].
  - unfold shifted. simpl. f_equal. lia.
  - unfold dt_lt, dt_cmp, utc_us, wall_us, shifted. simpl.
    destruct (dt_tzinfo n); cbn [bind];
      match goal with
      | |- context [?a ?= ?b] =>
        destruct (Z.compare_spec a b); try reflexivity; lia
      end.
  - unfold sub_us, utc_us, wall_us, shifted, DAY_US. simpl.
    destruct (dt_tzinfo n); f_equal; lia.
Qed.

(** X10. How the unlicenced-driver method fails: with the exception of
    [localize_timezone] when that fails, and otherwise only with
    [OverflowError], when the localized today plus 4 or plus 16 days leaves
    [datetime]'s range. *)
Theorem unlicenced_window_failures (service_date today : datetime) (e : exn) :
  unlicenced_window service_date today = Raise e ->
  localize_timezone today = Raise e
  \/ (e = OverflowError
      /\ exists localized,
           localize_timezone today = OK localized
           /\ (~ in_range localized 4 \/ ~ in_range localized 16)).
Proof.
  unfold UnlicencedDriver_get_min_max_review_dates,
    MIN_DAYS_FROM_SCHEDULING_TO_REVIEW, MAX_DAYS_FROM_SERVED_TO_REVIEW.
  destruct (localize_timezone today) as [n|e'] eqn:Hn; cbn [bind];
    [|intros H; injection H as <-; now left].
  destruct (in_range_dec n 4) as [H4|H4].
  - rewrite (add_days_in_range n 4 H4). cbn [bind].
    destruct (in_range_dec n 16) as [H16|H16].
    + rewrite (add_days_in_range n 16 H16). discriminate.
    + rewrite (add_days_out_of_range n 16 H16). cbn [bind].
      intros H. injection H as <-. right. split; [reflexivity|].
      exists n. auto.
  - rewrite (add_days_out_of_range n 4 H4). cbn [bind].
    intros H. injection H as <-. right. split; [reflexivity|].
    exists n. auto.
Qed.

End WindowProperties.

(** ** The registry and the fee schedule together *)

(** X11. [prohibition_factory] writes its critical log line exactly when it
    returns [None], writes nothing when it returns an instance, and never
    returns a bare [ProhibitionBase]. *)
Theorem prohibition_factory_logs_unknown (prohibition_type : string) :
  (snd (prohibition_factory prohibition_type) = None <->
   fst (prohibition_factory prohibition_type)
   = [(CRITICAL, "prohibition_type not known"%string)])
  /\ (snd (prohibition_factory prohibition_type) <> None <->
      fst (prohibition_factory prohibition_type) = [])
  /\ snd (prohibition_factory prohibition_type) <> Some Base.
Proof.
  unfold prohibition_factory.
  destruct (String.eqb prohibition_type "UL");
    [|destruct (String.eqb prohibition_type "IRP");
      [|destruct (String.eqb prohibition_type "ADP")]];
    cbn [fst snd]; repeat split; intros; congruence.
Qed.

(** X12. Every instance [prohibition_factory] returns prices both a written
    and an oral review, the written one at no more than the oral one, and
    [amount_due] never answers with any other amount. *)
Theorem factory_policies_price_reviews (prohibition_type : string)
  (cls : prohibition) :
  snd (prohibition_factory prohibition_type) = Some cls ->
  exists written oral,
    amount_due cls "WRIT" = Some written
    /\ amount_due cls "ORAL" = Some oral
    /\ 0 < written <= oral
    /\ (forall presentation_type price,
          amount_due cls presentation_type = Some price ->
          price = written \/ price = oral).
Proof.
  unfold prohibition_factory.
  destruct (String.eqb prohibition_type "UL");
    [|destruct (String.eqb prohibition_type "IRP");
      [|destruct (String.eqb prohibition_type "ADP")]];
    cbn [snd]; intros H; try discriminate; injection H as H; subst cls.
  - exists 50, 50. repeat split; try reflexivity; try lia.
    intros pt price H. cbv in H. injection H as <-. now left.
  - exists 100, 200. repeat split; try reflexivity; try lia.
    cbn. unfold ProhibitionBase_amount_due. intros pt price.
    destruct (String.eqb pt "WRIT"); [intros H; injection H as <-; now left|].
    destruct (String.eqb pt "ORAL"); [intros H; injection H as <-; now right|].
    discriminate.
  - exists 100, 200. repeat split; try reflexivity; try lia.
    cbn. unfold ProhibitionBase_amount_due. intros pt price.
    destruct (String.eqb pt "WRIT"); [intros H; injection H as <-; now left|].
    destruct (String.eqb pt "ORAL"); [intros H; injection H as <-; now right|].
    discriminate.
Qed.

(** ** [iso_date_string] of [test_vips.py] *)

Lemma pad2_inj (a b : Z) :
  0 <= a < 100 -> 0 <= b < 100 -> pad2 a = pad2 b -> a = b.
Proof.
  intros Ha Hb H. unfold pad2 in H. injection H as H1 H2.
  pose proof (num2_pad2 a Ha) as Ea. pose proof (num2_pad2 b Hb) as Eb.
  rewrite <- H1, <- H2 in Eb. congruence.
Qed.

Lemma pad4_inj (a b : Z) :
  0 <= a < 10000 -> 0 <= b < 10000 -> pad4 a = pad4 b -> a = b.
Proof.
  intros Ha Hb H. unfold pad4 in H. injection H as H1 H2 H3 H4.
  pose proof (num4_pad4 a Ha) as Ea. pose proof (num4_pad4 b Hb) as Eb.
  rewrite <- H1, <- H2, <- H3, <- H4 in Eb. congruence.
Qed.

(** X13. For dates from year 1000 on, [iso_date_string] gives ten
    characters with dashes at positions 4 and 7, and two datetimes have the
    same string exactly when they fall on the same calendar day: the time of
    day and the tzinfo do not show, and distinct days never collide. *)
Theorem iso_date_string_same_day (a b : datetime) :
  valid_datetime a -> valid_datetime b ->
  1000 <= year a -> 1000 <= year b ->
  String.length (iso_date_string a) = 10%nat
  /\ String.get 4 (iso_date_string a) = Some "-"%char
  /\ String.get 7 (iso_date_string a) = Some "-"%char
  /\ (iso_date_string a = iso_date_string b <-> ordinal a = ordinal b).
Proof.
  intros (Ha & _) (Hb & _) _ _.
  pose proof (ord2ymd_spec (ordinal a) Ha) as Sa.
  pose proof (ord2ymd_spec (ordinal b) Hb) as Sb.
  unfold iso_date_string, year, month, day.
  destruct (ord2ymd (ordinal a)) as [[ya ma] da] eqn:Ea.
  destruct (ord2ymd (ordinal b)) as [[yb mb] db] eqn:Eb.
  cbn [fst snd].
  destruct Sa as (Hya & Hma & Hda & Ra), Sb as (Hyb & Hmb & Hdb & Rb).
  pose proof (days_in_month_bound (is_leap ya) ma Hma) as Bda.
  pose proof (days_in_month_bound (is_leap yb) mb Hmb) as Bdb.
  repeat split.
  - unfold pad4, pad2. cbn [append]. intros H.
    injection H as Y1 Y2 Y3 Y4 M1 M2 D1 D2.
    assert (ya = yb)
      by (apply pad4_inj; try lia; unfold pad4; now rewrite Y1, Y2, Y3, Y4).
    assert (ma = mb)
      by (apply pad2_inj; try lia; unfold pad2; now rewrite M1, M2).
    assert (da = db)
      by (apply pad2_inj; try lia; unfold pad2; now rewrite D1, D2).
    congruence.
  - intros H. rewrite H in Ea. rewrite Ea in Eb. now injection Eb as -> -> ->.
Qed.

(** ** Instances of the further properties *)

Lemma base_window_lower_bounds_witness :
  exists minimum maximum,
    ProhibitionBase_get_min_max_review_dates pytz_zones
      sample_service_date sample_mid_today = OK (minimum, maximum)
    /\ dt_le (shifted (replace_tzinfo sample_mid_today
                         (pytz_zones "America/Vancouver")) 4) minimum = OK true
    /\ dt_le (shifted sample_service_date 6) minimum = OK true
    /\ dt_le (shifted (replace_tzinfo sample_mid_today
                         (pytz_zones "America/Vancouver")) 4) maximum = OK true
    /\ dt_le (shifted sample_service_date 16) maximum = OK true.
Proof.
  do 2 eexists. split; [vm_compute; reflexivity|].
  apply (base_window_lower_bounds pytz_zones sample_service_date sample_mid_today).
  vm_compute. reflexivity.
Defined.

Lemma base_window_width_witness :
  exists minimum maximum width,
    ProhibitionBase_get_min_max_review_dates pytz_zones
      sample_service_date sample_mid_today = OK (minimum, maximum)
    /\ sub_us maximum minimum = OK width /\ 0 <= width <= 10 * DAY_US.
Proof.
  destruct (base_window_width pytz_zones sample_service_date sample_mid_today
              (shifted (replace_tzinfo sample_mid_today
                          (pytz_zones "America/Vancouver")) 4)
              (shifted sample_service_date 16))
    as (width & Hsub & Hwidth); [vm_compute; reflexivity|].
  do 2 eexists. exists width. split; [vm_compute; reflexivity|].
  split; [exact Hsub | exact Hwidth].
Defined.


Lemma base_window_ignores_today_tzinfo_witness :
  ProhibitionBase_get_min_max_review_dates pytz_zones
    sample_service_date sample_today
  = ProhibitionBase_get_min_max_review_dates pytz_zones
      sample_service_date (replace_tzinfo sample_today PST).
Proof.
  apply (base_window_ignores_today_tzinfo pytz_zones). reflexivity.
Defined.

Lemma base_window_monotone_today_witness :
  exists minimum maximum minimum' maximum',
    ProhibitionBase_get_min_max_review_dates pytz_zones
      sample_service_date sample_today = OK (minimum, maximum)
    /\ ProhibitionBase_get_min_max_review_dates pytz_zones
         sample_service_date sample_mid_today = OK (minimum', maximum')
    /\ dt_le minimum minimum' = OK true /\ dt_le maximum maximum' = OK true.
Proof.
  do 4 eexists. split; [vm_compute; reflexivity|].
  split; [vm_compute; reflexivity|].
  apply (base_window_monotone_today pytz_zones sample_service_date
           sample_today sample_mid_today).
  - vm_compute. discriminate.
  - vm_compute. reflexivity.
  - vm_compute. reflexivity.
Defined.

Lemma base_window_monotone_service_date_witness :
  exists minimum maximum minimum' maximum',
    ProhibitionBase_get_min_max_review_dates pytz_zones
      sample_service_date sample_mid_today = OK (minimum, maximum)
    /\ ProhibitionBase_get_min_max_review_dates pytz_zones
         sample_later_service_date sample_mid_today = OK (minimum', maximum')
    /\ dt_le minimum minimum' = OK true /\ dt_le maximum maximum' = OK true.
Proof.
  do 4 eexists. split; [vm_compute; reflexivity|].
  split; [vm_compute; reflexivity|].
  apply (base_window_monotone_service_date pytz_zones sample_service_date
           sample_later_service_date sample_mid_today).
  - vm_compute. reflexivity.
  - vm_compute. reflexivity.
  - vm_compute. reflexivity.
Defined.

Lemma base_window_dates_witness :
  exists minimum maximum,
    ProhibitionBase_get_min_max_review_dates pytz_zones
      sample_service_date sample_mid_today = OK (minimum, maximum)
    /\ is_aware minimum = true /\ is_aware maximum = true
    /\ (minimum = shifted (replace_tzinfo sample_mid_today
                             (pytz_zones "America/Vancouver")) 4
        \/ minimum = shifted sample_service_date 6)
    /\ (maximum = shifted (replace_tzinfo sample_mid_today
                             (pytz_zones "America/Vancouver")) 4
        \/ maximum = shifted sample_service_date 16).
Proof.
  do 2 eexists. split; [vm_compute; reflexivity|].
  apply (base_window_dates pytz_zones sample_service_date sample_mid_today).
  vm_compute. reflexivity.
Defined.

Lemma base_window_failures_witness :
  ProhibitionBase_get_min_max_review_dates pytz_zones
    (midnight 2020 9 1) sample_today = Raise TypeError
  /\ ProhibitionBase_get_min_max_review_dates pytz_zones
       sample_service_date (midnight 9999 12 30) = Raise OverflowError.
Proof.
  split.
  - apply (base_window_failures pytz_zones (midnight 2020 9 1) sample_today).
    split; [reflexivity|]. vm_compute. repeat split; discriminate.
  - apply (base_window_failures pytz_zones sample_service_date
             (midnight 9999 12 30)).
    left. vm_compute. intros [_ H]. apply H. reflexivity.
Defined.

Lemma unlicenced_window_twelve_days_witness :
  exists minimum maximum,
    UnlicencedDriver_get_min_max_review_dates (localize_timezone_spec PDT)
      sample_service_date sample_today = OK (minimum, maximum)
    /\ maximum = shifted minimum 12
    /\ dt_lt minimum maximum = OK true
    /\ sub_us maximum minimum = OK (12 * DAY_US).
Proof.
  do 2 eexists. split; [vm_compute; reflexivity|].
  apply (unlicenced_window_twelve_days (localize_timezone_spec PDT)
           sample_service_date sample_today).
  vm_compute. reflexivity.
Defined.

Lemma unlicenced_window_failures_witness :
  localize_timezone_spec PDT (midnight 9999 12 30) = Raise OverflowError
  \/ (OverflowError = OverflowError
      /\ exists localized,
           localize_timezone_spec PDT (midnight 9999 12 30) = OK localized
           /\ (~ in_range localized 4 \/ ~ in_range localized 16)).
Proof.
  apply (unlicenced_window_failures (localize_timezone_spec PDT)
           sample_service_date (midnight 9999 12 30) OverflowError).
  vm_compute. reflexivity.
Defined.

Lemma prohibition_factory_logs_unknown_witness :
  fst (prohibition_factory "ul")
  = [(CRITICAL, "prohibition_type not known"%string)].
Proof.
  apply (prohibition_factory_logs_unknown "ul"). reflexivity.
Defined.

Lemma factory_policies_price_reviews_witness :
  exists written oral,
    amount_due Roadside "WRIT" = Some written
    /\ amount_due Roadside "ORAL" = Some oral
    /\ 0 < written <= oral
    /\ (forall presentation_type price,
          amount_due Roadside presentation_type = Some price ->
          price = written \/ price = oral).
Proof.
  apply (factory_policies_price_reviews "IRP" Roadside). reflexivity.
Defined.

Lemma iso_date_string_same_day_witness :
  String.length (iso_date_string sample_service_date) = 10%nat
  /\ String.get 4 (iso_date_string sample_service_date) = Some "-"%char
  /\ String.get 7 (iso_date_string sample_service_date) = Some "-"%char
  /\ (iso_date_string sample_service_date = iso_date_string (midnight 2020 9 1)
      <-> ordinal sample_service_date = ordinal (midnight 2020 9 1)).
Proof.
  apply (iso_date_string_same_day sample_service_date (midnight 2020 9 1)).
  - vm_compute. repeat split; discriminate.
  - vm_compute. repeat split; discriminate.
  - vm_compute. discriminate.
  - vm_compute. discriminate.
Defined.
